(** * Photo/Video sharing backend: the post service of [app/app.py]

    A shallow embedding of the three request handlers of [app/app.py]
    ([upload_file], [get_feed], [delete_post]) and of the part of their
    environment they act on: the relational store with its session, the
    temporary files of the operating system and the exceptions of Python.

    Handlers are written in a small state-and-exception monad, so that
    [try]/[except]/[finally] and [with] read as they do in the source. *)

From Stdlib Require Import ZArith String Ascii List Lia.
From Stdlib Require Import Sorting.Sorted Sorting.Permutation.
From stdpp Require Import base gmap strings list pretty.

Local Open Scope string_scope.
Local Open Scope Z_scope.

(* ===================================================================== *)
(** ** Python values the handlers manipulate                              *)
(* ===================================================================== *)

(** [uuid.UUID], by its 128-bit integer value. *)
Abbreviation UUID := N (only parsing).

(** A naive [datetime], as microseconds since the epoch. *)
Abbreviation datetime := Z (only parsing).

(** Exceptions.  [HTTPException] is the one FastAPI turns into a response
    with that status; every other exception class is kept by name, with
    the text [str] gives for it. *)
Inductive exn : Type :=
| HTTPException (status_code : Z) (detail : string)
| PyError (cls : string) (msg : string).

(** [str(e)].  Starlette's [HTTPException.__str__] prints the status code,
    a colon and the detail. *)
Definition str (e : exn) : string :=
  match e with
  | HTTPException status_code detail => pretty status_code ++ ": " ++ detail
  | PyError _ msg => msg
  end.

(** The status line FastAPI answers with when a handler raises [e]: the
    status of an [HTTPException], 500 for anything else that escapes. *)
Definition response_status (e : exn) : Z :=
  match e with
  | HTTPException status_code _ => status_code
  | PyError _ _ => 500
  end.

(** How a call ends. *)
Inductive outcome (A : Type) : Type :=
| Returns (a : A)
| Raises (e : exn).
Arguments Returns {A} a.
Arguments Raises {A} e.

(* ===================================================================== *)
(** ** A state-and-exception monad                                        *)
(* ===================================================================== *)

Module Exec.

Definition M (S A : Type) : Type := S -> S * outcome A.

Definition ret {S A} (a : A) : M S A := fun s => (s, Returns a).

Definition bind {S A B} (c : M S A) (k : A -> M S B) : M S B :=
  fun s =>
    match c s with
    | (s1, Returns a) => k a s1
    | (s1, Raises e) => (s1, Raises e)
    end.

Definition raise {S A} (e : exn) : M S A := fun s => (s, Raises e).

Definition get {S} : M S S := fun s => (s, Returns s).

Definition modify {S} (f : S -> S) : M S unit := fun s => (f s, Returns tt).

(** Ends as the given outcome does. *)
Definition of_outcome {S A} (o : outcome A) : M S A := fun s => (s, o).

(** [try: body  except Exception as e: handler e] *)
Definition try_except {S A} (body : M S A) (handler : exn -> M S A) : M S A :=
  fun s =>
    match body s with
    | (s1, Returns a) => (s1, Returns a)
    | (s1, Raises e) => handler e s1
    end.

(** [try: body  finally: final].  The [finally] block runs on every way
    out of [body]; when it raises, its exception replaces whatever
    [body] was returning or raising. *)
Definition try_finally {S A} (body : M S A) (final : M S unit) : M S A :=
  fun s =>
    match body s with
    | (s1, o) =>
        match final s1 with
        | (s2, Returns _) => (s2, o)
        | (s2, Raises e) => (s2, Raises e)
        end
    end.

(** [with resource as x: body x].  [release x] is the context manager's
    [__exit__]: it runs whether [body] returns or raises, and the
    exception of [body] keeps propagating. *)
Definition with_ {S R A} (acquire : M S R) (release : R -> M S unit)
    (body : R -> M S A) : M S A :=
  bind acquire (fun x => try_finally (body x) (release x)).

End Exec.

Declare Scope exec_scope.
Delimit Scope exec_scope with exec.
Notation "x <- c ;; k" := (Exec.bind c (fun x => k))
  (at level 100, c at next level, right associativity) : exec_scope.
Notation "c ;;; k" := (Exec.bind c (fun _ => k))
  (at level 100, right associativity) : exec_scope.
Local Open Scope exec_scope.

(* ===================================================================== *)
(** ** Data model                                                         *)
(* ===================================================================== *)

Module User.
(** Modelled from the spec: the [User] table is declared in [app/db.py],
    which is not among the sources.  Section 3 of the specification gives
    its fields; the handlers read [id] and [email] only. *)
Record t : Type := mk { id : UUID; email : string }.
End User.

Module Post.
(** Modelled from the spec: the [Post] table is declared in [app/db.py],
    which is not among the sources.  Section 3 of the specification gives
    these seven columns; [id] and [created_at] are filled in by the
    store when the row is inserted. *)
Record t : Type := mk {
  id : UUID;
  user_id : UUID;
  caption : string;
  url : string;
  file_type : string;
  file_name : string;
  created_at : datetime
}.
End Post.

Module NewPost.
(** A [Post(...)] object as the handler constructs it, before the
    session flushes it: the five columns the constructor call names. *)
Record t : Type := mk {
  user_id : UUID;
  caption : string;
  url : string;
  file_type : string;
  file_name : string
}.

(** The row a flush writes for it, given the defaults the store
    generated for [id] and [created_at]. *)
Definition materialize (stamp : UUID * datetime) (p : t) : Post.t :=
  {| Post.id := fst stamp;
     Post.user_id := user_id p;
     Post.caption := caption p;
     Post.url := url p;
     Post.file_type := file_type p;
     Post.file_name := file_name p;
     Post.created_at := snd stamp |}.
End NewPost.

#[global] Instance User_eq_dec : EqDecision User.t.
Proof. solve_decision. Defined.
#[global] Instance Post_eq_dec : EqDecision Post.t.
Proof. solve_decision. Defined.

(* ===================================================================== *)
(** ** The world a request runs in                                        *)
(* ===================================================================== *)

Inductive mode : Type := Wb | Rb.

(** An open file object on a path of the filesystem. *)
Record handle : Type := { h_path : string; h_mode : mode }.

#[global] Instance mode_eq_dec : EqDecision mode.
Proof. solve_decision. Defined.
#[global] Instance handle_eq_dec : EqDecision handle.
Proof. solve_decision. Defined.

Record World : Type := {
  (** committed rows of the two tables *)
  posts : list Post.t;
  users : list User.t;
  (** the request's [AsyncSession]: objects added and objects marked for
      deletion, not yet flushed *)
  session_new : list NewPost.t;
  session_deleted : list Post.t;
  (** paths that exist in the filesystem, and file objects the handler
      has opened and not closed by a statement of its own (CPython also
      closes a file object when its last reference goes; no statement of
      the handler decides when, and the model leaves it out) *)
  files : list string;
  open_handles : list handle;
  (** whether [file.file], the spooled body of the request, was closed *)
  body_closed : bool
}.

Definition with_posts (ps : list Post.t) (w : World) : World :=
  {| posts := ps; users := users w;
     session_new := session_new w; session_deleted := session_deleted w;
     files := files w; open_handles := open_handles w;
     body_closed := body_closed w |}.

Definition with_session (n : list NewPost.t) (d : list Post.t) (w : World) : World :=
  {| posts := posts w; users := users w;
     session_new := n; session_deleted := d;
     files := files w; open_handles := open_handles w;
     body_closed := body_closed w |}.

Definition with_files (fs : list string) (w : World) : World :=
  {| posts := posts w; users := users w;
     session_new := session_new w; session_deleted := session_deleted w;
     files := fs; open_handles := open_handles w;
     body_closed := body_closed w |}.

Definition with_open_handles (hs : list handle) (w : World) : World :=
  {| posts := posts w; users := users w;
     session_new := session_new w; session_deleted := session_deleted w;
     files := files w; open_handles := hs;
     body_closed := body_closed w |}.

Definition with_body_closed (b : bool) (w : World) : World :=
  {| posts := posts w; users := users w;
     session_new := session_new w; session_deleted := session_deleted w;
     files := files w; open_handles := open_handles w;
     body_closed := b |}.

(* ===================================================================== *)
(** ** Library calls of the handlers                                      *)
(* ===================================================================== *)

(** [s.rfind(c)]: the index of the last occurrence of [c], [-1] when there
    is none. *)
Fixpoint rfind_from (i : Z) (c : ascii) (s : string) : Z :=
  match s with
  | EmptyString => -1
  | String a s' =>
      let r := rfind_from (i + 1) c s' in
      if 0 <=? r then r else if Ascii.eqb a c then i else -1
  end.

Definition rfind (c : ascii) (s : string) : Z := rfind_from 0 c s.

(** The loop of [genericpath._splitext] that skips the leading dots of the
    last path component; [fuel] is [dotIndex - filenameIndex]. *)
Fixpoint splitext_loop (fuel : nat) (filenameIndex dotIndex : Z) (p : string)
  : string * string :=
  match fuel with
  | O => (p, "")
  | S fuel' =>
      if negb (String.eqb (substring (Z.to_nat filenameIndex) 1 p) ".")
      then (substring 0 (Z.to_nat dotIndex) p,
            substring (Z.to_nat dotIndex) (String.length p - Z.to_nat dotIndex) p)
      else splitext_loop fuel' (filenameIndex + 1) dotIndex p
  end.

(** [os.path.splitext] (posix: separator [/], extension separator [.]). *)
Definition splitext (p : string) : string * string :=
  let sepIndex := rfind "/"%char p in
  let dotIndex := rfind "."%char p in
  if sepIndex <? dotIndex
  then splitext_loop (Z.to_nat (dotIndex - (sepIndex + 1))) (sepIndex + 1) dotIndex p
  else (p, "").

(** [s.startswith(prefix)] *)
Definition startswith (s prefix : string) : bool := String.prefix prefix s.

(** The request's [UploadFile]: the two attributes the handler reads.
    Starlette gives [content_type] as [None] when the multipart part has
    no Content-Type header. *)
Module UploadFile.
Record t : Type := mk { filename : string; content_type : option string }.
End UploadFile.

(** What [imagekit.upload_file] returns, as far as the handler reads it:
    [response_metadata.http_status_code], [url] and [name]. *)
Module UploadResult.
Record t : Type := mk { http_status_code : Z; url : string; name : string }.
End UploadResult.

(** What the collaborators of one request do.  The handlers decide none of
    this: each field is the outcome of one call that leaves the process. *)
Module Env.
Record t : Type := mk {
  (** [tempfile.NamedTemporaryFile(delete=False, suffix=s)]: the path of
      the file it creates, or the error *)
  NamedTemporaryFile : string -> outcome string;
  (** [shutil.copyfileobj(file.file, temp_file)] *)
  copyfileobj : outcome unit;
  (** [open(path, "rb")] on a path that exists *)
  open_rb : outcome unit;
  (** [imagekit.upload_file(file=..., file_name=n, options=...)] *)
  imagekit_upload_file : string -> outcome UploadResult.t;
  (** [session.commit()], and the defaults the store generates for the
      [i]-th row a flush inserts *)
  commit : outcome unit;
  defaults : nat -> UUID * datetime;
  (** [session.refresh(obj)] *)
  refresh : outcome unit
}.
End Env.

(** *** Filesystem *)

Definition NamedTemporaryFile (env : Env.t) (suffix : string) : Exec.M World handle :=
  path <- Exec.of_outcome (Env.NamedTemporaryFile env suffix) ;;
  let h := {| h_path := path; h_mode := Wb |} in
  Exec.modify (fun w =>
    with_open_handles (h :: open_handles w) (with_files (path :: files w) w)) ;;;
  Exec.ret h.

(** [h.close()]: that file object is no longer open. *)
Fixpoint remove_first (h : handle) (hs : list handle) : list handle :=
  match hs with
  | [] => []
  | h' :: hs' => if decide (h = h') then hs' else h' :: remove_first h hs'
  end.

Definition close (h : handle) : Exec.M World unit :=
  Exec.modify (fun w => with_open_handles (remove_first h (open_handles w)) w).

Definition copyfileobj (env : Env.t) : Exec.M World unit :=
  Exec.of_outcome (Env.copyfileobj env).

Definition exists_ (path : string) (w : World) : bool :=
  bool_decide (path ∈ files w).

(** [open(path, "rb")].  The file object it returns is recorded as open;
    only a [close] removes it from the record. *)
Definition open_rb (env : Env.t) (path : string) : Exec.M World handle :=
  w <- Exec.get ;;
  if exists_ path w then
    Exec.of_outcome (Env.open_rb env) ;;;
    let h := {| h_path := path; h_mode := Rb |} in
    Exec.modify (fun w => with_open_handles (h :: open_handles w) w) ;;;
    Exec.ret h
  else
    Exec.raise (PyError "FileNotFoundError"
                  ("[Errno 2] No such file or directory: '" ++ path ++ "'")).

Definition unlink (path : string) : Exec.M World unit :=
  w <- Exec.get ;;
  if exists_ path w then
    Exec.modify (fun w => with_files (filter (fun p => p ≠ path) (files w)) w)
  else
    Exec.raise (PyError "FileNotFoundError"
                  ("[Errno 2] No such file or directory: '" ++ path ++ "'")).

Definition close_body : Exec.M World unit :=
  Exec.modify (with_body_closed true).

(** *** Session *)

Definition session_add (p : NewPost.t) : Exec.M World unit :=
  Exec.modify (fun w => with_session (session_new w ++ [p]) (session_deleted w) w).

Definition session_delete (p : Post.t) : Exec.M World unit :=
  Exec.modify (fun w => with_session (session_new w) (session_deleted w ++ [p]) w).

(** The rows a flush inserts for the objects added to the session, in the
    order they were added. *)
Definition flushed_rows (env : Env.t) (w : World) : list Post.t :=
  imap (fun i p => NewPost.materialize (Env.defaults env i) p) (session_new w).

Definition marked_deleted (w : World) (row : Post.t) : bool :=
  bool_decide (Post.id row ∈ map Post.id (session_deleted w)).

(** [session.commit()]: when the store accepts it, the rows marked for
    deletion are gone, a row is written for every added object, and the
    session holds nothing pending; the call returns the rows written (in
    Python they are the added objects, now with [id] and [created_at]).
    When the store raises, its tables are as before. *)
Definition session_commit (env : Env.t) : Exec.M World (list Post.t) :=
  Exec.of_outcome (Env.commit env) ;;;
  w <- Exec.get ;;
  let rows := flushed_rows env w in
  Exec.modify (fun w =>
    with_session [] []
      (with_posts (filter (fun r => marked_deleted w r = false) (posts w) ++ rows) w)) ;;;
  Exec.ret rows.

(** [session.refresh(obj)] on the last object the session wrote: reloads
    its row.  An object the session wrote no row for is not persistent. *)
Definition session_refresh (env : Env.t) (rows : list Post.t) : Exec.M World Post.t :=
  match last rows with
  | Some row => Exec.of_outcome (Env.refresh env) ;;; Exec.ret row
  | None =>
      Exec.raise (PyError "InvalidRequestError"
                    "Instance is not persistent within this Session")
  end.

(** [Select(Post).order_by(Post.created_at.desc())]: the rows of the table,
    latest first.  Insertion into a list that is already in that order. *)
Fixpoint insert_desc (p : Post.t) (l : list Post.t) : list Post.t :=
  match l with
  | [] => [p]
  | q :: l' =>
      if Post.created_at q <=? Post.created_at p
      then p :: q :: l'
      else q :: insert_desc p l'
  end.

Definition order_by_created_at_desc (rows : list Post.t) : list Post.t :=
  fold_right insert_desc [] rows.

Definition select_posts_by_created_at_desc : Exec.M World (list Post.t) :=
  w <- Exec.get ;; Exec.ret (order_by_created_at_desc (posts w)).

(** [Select(User)] *)
Definition select_users : Exec.M World (list User.t) :=
  w <- Exec.get ;; Exec.ret (users w).

(** [Select(Post).where(Post.id == post_uuid)] followed by
    [result.scalars().first()] *)
Definition select_post_by_id (post_uuid : UUID) : Exec.M World (option Post.t) :=
  w <- Exec.get ;;
  Exec.ret (head (filter (fun r => Post.id r = post_uuid) (posts w))).

(* ===================================================================== *)
(** ** The handlers                                                       *)
(* ===================================================================== *)

(** The local variable of [upload_file] that its [finally] block reads,
    next to the world: [None] while no assignment to it has run.  (The
    other local set before the [try], [temp_file = None], is not read
    again.) *)
Record Frame : Type := { temp_file_path : option string; world : World }.

(** A call that acts on the world, run from inside the frame. *)
Definition in_world {A} (c : Exec.M World A) : Exec.M Frame A :=
  fun f =>
    match c (world f) with
    | (w', o) => ({| temp_file_path := temp_file_path f; world := w' |}, o)
    end.

Definition assign_temp_file_path (path : string) : Exec.M Frame unit :=
  Exec.modify (fun f => {| temp_file_path := Some path; world := world f |}).

(** Reading the local; reading it before it was bound raises. *)
Definition read_temp_file_path : Exec.M Frame string :=
  f <- Exec.get ;;
  match temp_file_path f with
  | Some path => Exec.ret path
  | None =>
      Exec.raise (PyError "UnboundLocalError"
        "cannot access local variable 'temp_file_path' where it is not associated with a value")
  end.

(** [file.content_type.startswith("video/")] *)
Definition content_type_startswith (file : UploadFile.t) (prefix : string)
  : outcome bool :=
  match UploadFile.content_type file with
  | Some content_type => Returns (startswith content_type prefix)
  | None =>
      Raises (PyError "AttributeError"
                "'NoneType' object has no attribute 'startswith'")
  end.

(** Lines 45-48: the payload is copied into a named temporary file that
    carries the extension of the uploaded file's name. *)
Definition stage_upload (env : Env.t) (file : UploadFile.t) : Exec.M Frame unit :=
  Exec.with_
    (in_world (NamedTemporaryFile env (snd (splitext (UploadFile.filename file)))))
    (fun temp_file => in_world (close temp_file))
    (fun temp_file =>
       assign_temp_file_path (h_path temp_file) ;;;
       in_world (copyfileobj env)).

(** Lines 51-58: the temporary file is opened for reading and handed to
    ImageKit together with the original file name. *)
Definition forward_to_storage (env : Env.t) (file : UploadFile.t)
  : Exec.M Frame UploadResult.t :=
  path <- read_temp_file_path ;;
  in_world (open_rb env path) ;;;
  in_world (Exec.of_outcome
              (Env.imagekit_upload_file env (UploadFile.filename file))).

(** Lines 61-67: the [Post(...)] constructor call, once the test on the
    content type has been evaluated. *)
Definition new_post (user : User.t) (caption : string)
    (upload_result : UploadResult.t) (is_video : bool) : NewPost.t :=
  {| NewPost.user_id := User.id user;
     NewPost.caption := caption;
     NewPost.url := UploadResult.url upload_result;
     NewPost.file_type := if is_video then "video" else "image";
     NewPost.file_name := UploadResult.name upload_result |}.

(** Lines 60-71: on status 200 a post is added, committed, refreshed and
    returned; otherwise control leaves the [if] with nothing returned. *)
Definition record_post (env : Env.t) (file : UploadFile.t) (caption : string)
    (user : User.t) (upload_result : UploadResult.t) : Exec.M Frame (option Post.t) :=
  if UploadResult.http_status_code upload_result =? 200 then
    is_video <- Exec.of_outcome (content_type_startswith file "video/") ;;
    let post := new_post user caption upload_result is_video in
    in_world (session_add post) ;;;
    rows <- in_world (session_commit env) ;;
    post <- in_world (session_refresh env rows) ;;
    Exec.ret (Some post)
  else
    Exec.ret None.

(** Lines 45-71: the body of the [try]. *)
Definition upload_file_try (env : Env.t) (file : UploadFile.t) (caption : string)
    (user : User.t) : Exec.M Frame (option Post.t) :=
  stage_upload env file ;;;
  upload_result <- forward_to_storage env file ;;
  record_post env file caption user upload_result.

(** Lines 76-78: the [finally] block. *)
Definition upload_file_finally : Exec.M Frame unit :=
  path <- read_temp_file_path ;;
  f <- Exec.get ;;
  (if negb (String.eqb path "") && exists_ path (world f)
   then in_world (unlink path)
   else Exec.ret tt) ;;;
  in_world close_body.

(** [upload_file], lines 42-78.  A call that falls off the end of the
    function returns [None]. *)
Definition upload_file (env : Env.t) (file : UploadFile.t) (caption : string)
    (user : User.t) : Exec.M Frame (option Post.t) :=
  Exec.try_finally
    (Exec.try_except
       (upload_file_try env file caption user)
       (fun e => Exec.raise (HTTPException 500 (str e))))
    upload_file_finally.

(** [Depends(get_async_session)]: every request gets a session of its
    own, with nothing pending. *)
Definition get_async_session (w : World) : World := with_session [] [] w.

(** One request to [POST /upload].  [caption] is the form field of that
    name when the request has one, and [Form("")] makes it the empty
    string otherwise; the handler starts on a session of its own with
    [temp_file_path] unbound, and leaves the world behind. *)
Definition post_upload (env : Env.t) (file : UploadFile.t) (caption : option string)
    (user : User.t) (w : World) : World * outcome (option Post.t) :=
  match upload_file env file (default "" caption) user
          {| temp_file_path := None; world := get_async_session w |} with
  | (f, o) => (world f, o)
  end.

(** An entry of [posts_data]. *)
Module PostData.
Record t : Type := mk {
  id : string;
  user_id : string;
  caption : string;
  url : string;
  file_type : string;
  file_name : string;
  created_at : string;
  is_owner : bool;
  email : string
}.
End PostData.

(** The body [delete_post] returns. *)
Module Ack.
Record t : Type := mk { success : bool; message : string }.
End Ack.

Section Handlers.

(** [str] on a UUID, [datetime.isoformat] and the [uuid.UUID(hex)]
    constructor: library functions the handlers call and no claim looks
    into. *)
Variable str_UUID : UUID -> string.
Variable isoformat : datetime -> string.
Variable UUID_of_hex : string -> outcome UUID.

(** [{u.id: u.email for u in users}]: later rows overwrite earlier ones. *)
Definition user_dict_of (users : list User.t) : gmap N string :=
  fold_left (fun d u => <[User.id u := User.email u]> d) users ∅.

(** [d.get(key, default)] *)
Definition dict_get (d : gmap N string) (key : UUID) (default : string) : string :=
  match d !! key with
  | Some v => v
  | None => default
  end.

(** The dictionary lines 97-107 build for one post. *)
Definition post_data (user : User.t) (user_dict : gmap N string) (post : Post.t)
  : PostData.t :=
  {| PostData.id := str_UUID (Post.id post);
     PostData.user_id := str_UUID (Post.user_id post);
     PostData.caption := Post.caption post;
     PostData.url := Post.url post;
     PostData.file_type := Post.file_type post;
     PostData.file_name := Post.file_name post;
     PostData.created_at := isoformat (Post.created_at post);
     PostData.is_owner := N.eqb (Post.user_id post) (User.id user);
     PostData.email := dict_get user_dict (Post.user_id post) "Unknown" |}.

(** [get_feed], lines 85-109; the value is the list under the key
    ["posts"] of the response. *)
Definition get_feed (user : User.t) : Exec.M World (list PostData.t) :=
  posts <- select_posts_by_created_at_desc ;;
  users <- select_users ;;
  let user_dict := user_dict_of users in
  let posts_data :=
    fold_left (fun (posts_data : list PostData.t) post =>
                 (posts_data ++ [post_data user user_dict post])%list)
              posts [] in
  Exec.ret posts_data.

(** [delete_post], lines 115-130. *)
Definition delete_post (env : Env.t) (post_id : string) (user : User.t)
  : Exec.M World Ack.t :=
  Exec.try_except
    (post_uuid <- Exec.of_outcome (UUID_of_hex post_id) ;;
     post <- select_post_by_id post_uuid ;;
     match post with
     | None => Exec.raise (HTTPException 404 "Post not found")
     | Some post =>
         if negb (N.eqb (Post.user_id post) (User.id user))
         then Exec.raise
                (HTTPException 403 "You didn't have access to delete this post.")
         else
           session_delete post ;;;
           session_commit env ;;;
           Exec.ret {| Ack.success := true;
                       Ack.message := "Post Deleted Successfully" |}
     end)
    (fun e => Exec.raise (HTTPException 500 (str e))).

End Handlers.

(** How FastAPI answers for a handler's outcome: 200 when it returns. *)
Definition http_status {A} (o : outcome A) : Z :=
  match o with
  | Returns _ => 200
  | Raises e => response_status e
  end.

(* ===================================================================== *)
(** ** Vocabulary of the statements                                       *)
(* ===================================================================== *)

(** The upload got as far as an answer from Storage: the payload was
    staged in the temporary file [path], the staged file was opened, and
    ImageKit returned [r] without raising. *)
Definition storage_responded (env : Env.t) (file : UploadFile.t)
    (path : string) (r : UploadResult.t) : Prop :=
  Env.NamedTemporaryFile env (snd (splitext (UploadFile.filename file))) = Returns path /\
  Env.copyfileobj env = Returns tt /\
  Env.open_rb env = Returns tt /\
  Env.imagekit_upload_file env (UploadFile.filename file) = Returns r.

(** Table [post] gained exactly the row [p]. *)
Definition inserted (w w' : World) (p : Post.t) : Prop :=
  posts w' = (posts w ++ [p])%list.

(** The world once the temporary file [path] has been created and its
    write handle closed again. *)
Definition staged_world (path : string) (w : World) : World :=
  with_files (path :: files w) (get_async_session w).

(** The world once the staged file has been opened for reading. *)
Definition opened_world (path : string) (w : World) : World :=
  with_open_handles ({| h_path := path; h_mode := Rb |} :: open_handles w)
    (staged_world path w).

(** What the [finally] block of [upload_file] does to a world when
    [temp_file_path] is bound to [path]. *)
Definition cleanup (path : string) (w : World) : World :=
  with_body_closed true
    (if negb (String.eqb path "") && exists_ path w
     then with_files (filter (fun p => p <> path) (files w)) w
     else w).

(** [created_at] descending. *)
Definition later_first (p q : Post.t) : Prop :=
  Post.created_at q <= Post.created_at p.

(** *** Sample requests *)

Definition alice : User.t := {| User.id := 1; User.email := "alice@example.com" |}.
Definition bob : User.t := {| User.id := 2; User.email := "bob@example.com" |}.

Definition empty_world : World :=
  {| posts := []; users := [alice; bob];
     session_new := []; session_deleted := [];
     files := []; open_handles := []; body_closed := false |}.

Definition clip : UploadFile.t :=
  {| UploadFile.filename := "cat.mp4"; UploadFile.content_type := Some "video/mp4" |}.

Definition stored (status : Z) (n : string) : UploadResult.t :=
  {| UploadResult.http_status_code := status;
     UploadResult.url := "https://ik.imagekit.io/demo/" ++ n;
     UploadResult.name := "u1_" ++ n |}.

(** The row a successful upload of [clip] by alice with caption ["hello"]
    writes under [env_status 200] below. *)
Definition clip_post : Post.t :=
  {| Post.id := 7; Post.user_id := 1; Post.caption := "hello";
     Post.url := "https://ik.imagekit.io/demo/cat.mp4"; Post.file_type := "video";
     Post.file_name := "u1_cat.mp4"; Post.created_at := 1700000000000000 |}.

(** Every collaborator answers; Storage with the given status. *)
Definition env_status (status : Z) : Env.t :=
  {| Env.NamedTemporaryFile := fun suffix => Returns ("/tmp/tmpk3x9" ++ suffix);
     Env.copyfileobj := Returns tt;
     Env.open_rb := Returns tt;
     Env.imagekit_upload_file := fun n => Returns (stored status n);
     Env.commit := Returns tt;
     Env.defaults := fun i => ((N.of_nat i + 7)%N, 1700000000000000);
     Env.refresh := Returns tt |}.

(** As [env_status 200], but the store refuses the commit. *)
Definition env_commit_error : Env.t :=
  {| Env.NamedTemporaryFile := Env.NamedTemporaryFile (env_status 200);
     Env.copyfileobj := Returns tt;
     Env.open_rb := Returns tt;
     Env.imagekit_upload_file := Env.imagekit_upload_file (env_status 200);
     Env.commit := Raises (PyError "OperationalError" "connection was closed");
     Env.defaults := Env.defaults (env_status 200);
     Env.refresh := Returns tt |}.

(** A feed of three posts, two by alice and one by an author whose user
    row is gone. *)
Definition three_posts : World :=
  with_posts
    [ {| Post.id := 11; Post.user_id := 1; Post.caption := "first";
         Post.url := "https://ik.imagekit.io/demo/a.png"; Post.file_type := "image";
         Post.file_name := "a.png"; Post.created_at := 100 |};
      {| Post.id := 12; Post.user_id := 9; Post.caption := "";
         Post.url := "https://ik.imagekit.io/demo/b.mp4"; Post.file_type := "video";
         Post.file_name := "b.mp4"; Post.created_at := 300 |};
      {| Post.id := 13; Post.user_id := 1; Post.caption := "third";
         Post.url := "https://ik.imagekit.io/demo/c.png"; Post.file_type := "image";
         Post.file_name := "c.png"; Post.created_at := 200 |} ]
    empty_world.

(** Identifiers as they come in the path of a delete request: the string
    forms of the UUIDs with integer values 11, 12, 40 and 7. *)
Definition first_post_id : string := "00000000-0000-0000-0000-00000000000b".
Definition second_post_id : string := "00000000-0000-0000-0000-00000000000c".
Definition missing_post_id : string := "00000000-0000-0000-0000-000000000028".
Definition clip_post_id : string := "00000000-0000-0000-0000-000000000007".

(** A stand-in for [uuid.UUID(hex)] on the sample identifiers; every
    other string counts as malformed. *)
Definition sample_UUID_of_hex (s : string) : outcome UUID :=
  if String.eqb s first_post_id then Returns 11%N
  else if String.eqb s second_post_id then Returns 12%N
  else if String.eqb s missing_post_id then Returns 40%N
  else Raises (PyError "ValueError" "badly formed hexadecimal UUID string").

(** *** The other endpoints as requests, and further samples *)

(** One request to [DELETE /posts/{post_id}]: like every request, the
    handler runs on a session of its own. *)
Definition delete_request (UUID_of_hex : string -> outcome UUID) (env : Env.t)
    (post_id : string) (user : User.t) (w : World) : World * outcome Ack.t :=
  delete_post UUID_of_hex env post_id user (get_async_session w).

(** The body line 128 returns. *)
Definition deleted_ack : Ack.t :=
  {| Ack.success := true; Ack.message := "Post Deleted Successfully" |}.

(** Table [post] without the rows that carry the id [post_uuid]. *)
Definition without_post (post_uuid : UUID) (rows : list Post.t) : list Post.t :=
  filter (fun r => Post.id r <> post_uuid) rows.

(** As [env_status 200], but reloading the committed row fails. *)
Definition env_refresh_error : Env.t :=
  {| Env.NamedTemporaryFile := Env.NamedTemporaryFile (env_status 200);
     Env.copyfileobj := Returns tt;
     Env.open_rb := Returns tt;
     Env.imagekit_upload_file := Env.imagekit_upload_file (env_status 200);
     Env.commit := Returns tt;
     Env.defaults := Env.defaults (env_status 200);
     Env.refresh := Raises (PyError "OperationalError" "server closed the connection") |}.

(** As [env_status 200], but no temporary file can be created. *)
Definition env_no_tempfile : Env.t :=
  {| Env.NamedTemporaryFile :=
       fun _ => Raises (PyError "OSError" "[Errno 28] No space left on device");
     Env.copyfileobj := Returns tt;
     Env.open_rb := Returns tt;
     Env.imagekit_upload_file := Env.imagekit_upload_file (env_status 200);
     Env.commit := Returns tt;
     Env.defaults := Env.defaults (env_status 200);
     Env.refresh := Returns tt |}.

(** A multipart part that declares no content type. *)
Definition untyped_clip : UploadFile.t :=
  {| UploadFile.filename := "cat.mp4"; UploadFile.content_type := None |}.

(** A stand-in for [uuid.UUID(hex)] that knows the id of [clip_post]. *)
Definition clip_UUID_of_hex (s : string) : outcome UUID :=
  if String.eqb s clip_post_id then Returns 7%N
  else Raises (PyError "ValueError" "badly formed hexadecimal UUID string").

(* ===================================================================== *)
(** * Properties                                                          *)
(* ===================================================================== *)

(** ** Library models on sample values *)

Example splitext_samples :
  splitext "cat.mp4" = ("cat", ".mp4") /\
  splitext "archive.tar.gz" = ("archive.tar", ".gz") /\
  splitext ".bashrc" = (".bashrc", "") /\
  splitext "dir.d/README" = ("dir.d/README", "") /\
  splitext "" = ("", "").
Proof. repeat split; reflexivity. Qed.

Example str_of_http_exception :
  str (HTTPException 404 "Post not found") = "404: Post not found".
Proof. reflexivity. Qed.

(** ** Running [upload_file] path by path *)

Lemma exists_cons_same path fs w : exists_ path (with_files (path :: fs) w) = true.
Proof. apply bool_decide_eq_true. simpl. left. Qed.

Lemma remove_first_head h hs : remove_first h (h :: hs) = hs.
Proof. simpl. destruct (decide (h = h)); congruence. Qed.

Lemma marked_deleted_fresh w r : session_deleted w = [] -> marked_deleted w r = false.
Proof.
  intros H. unfold marked_deleted. rewrite H. apply bool_decide_eq_false.
  simpl. apply not_elem_of_nil.
Qed.

Lemma filter_not_marked w (l : list Post.t) :
  session_deleted w = [] ->
  filter (fun r => marked_deleted w r = false) l = l.
Proof.
  intros H. induction l as [|r l IH]; [reflexivity|].
  rewrite filter_cons. destruct (decide (marked_deleted w r = false)) as [_|n].
  - by rewrite IH.
  - destruct n. by apply marked_deleted_fresh.
Qed.

Section UploadSteps.

Variable env : Env.t.
Variable file : UploadFile.t.
Variable user : User.t.

Lemma stage_upload_create_fails f e :
  Env.NamedTemporaryFile env (snd (splitext (UploadFile.filename file))) = Raises e ->
  stage_upload env file f = (f, Raises e).
Proof.
  intros H. unfold stage_upload, Exec.with_, Exec.bind, in_world, NamedTemporaryFile,
    Exec.bind, Exec.of_outcome.
  rewrite H. destruct f; reflexivity.
Qed.

Lemma stage_upload_created f path :
  Env.NamedTemporaryFile env (snd (splitext (UploadFile.filename file))) = Returns path ->
  stage_upload env file f =
    ({| temp_file_path := Some path;
        world := with_files (path :: files (world f)) (world f) |},
     Env.copyfileobj env).
Proof.
  intros H. unfold stage_upload, Exec.with_, Exec.bind, in_world, NamedTemporaryFile,
    Exec.bind, Exec.of_outcome.
  rewrite H. cbn -[remove_first]. rewrite remove_first_head.
  destruct (Env.copyfileobj env) as [[]|e]; reflexivity.
Qed.

Lemma forward_to_storage_open_fails path w e :
  exists_ path w = true ->
  Env.open_rb env = Raises e ->
  forward_to_storage env file {| temp_file_path := Some path; world := w |}
    = ({| temp_file_path := Some path; world := w |}, Raises e).
Proof.
  intros Hex H. unfold forward_to_storage, Exec.bind, in_world, open_rb, Exec.bind,
    Exec.of_outcome. cbn -[exists_]. rewrite Hex. rewrite H. reflexivity.
Qed.

Lemma forward_to_storage_opened path w :
  exists_ path w = true ->
  Env.open_rb env = Returns tt ->
  forward_to_storage env file {| temp_file_path := Some path; world := w |}
    = ({| temp_file_path := Some path;
          world := with_open_handles
                     ({| h_path := path; h_mode := Rb |} :: open_handles w) w |},
       Env.imagekit_upload_file env (UploadFile.filename file)).
Proof.
  intros Hex H. unfold forward_to_storage, Exec.bind, in_world, open_rb, Exec.bind,
    Exec.of_outcome. cbn -[exists_]. rewrite Hex. rewrite H. cbn.
  destruct (Env.imagekit_upload_file env _); reflexivity.
Qed.

Section RecordPost.

Variable caption : string.

Lemma record_post_not_200 r f :
  UploadResult.http_status_code r <> 200 ->
  record_post env file caption user r f = (f, Returns None).
Proof.
  intros H. unfold record_post.
  destruct (Z.eqb_spec (UploadResult.http_status_code r) 200); [contradiction | reflexivity].
Qed.

Lemma record_post_no_content_type r f :
  UploadResult.http_status_code r = 200 ->
  UploadFile.content_type file = None ->
  exists e, record_post env file caption user r f = (f, Raises e).
Proof.
  intros H Hc. unfold record_post. rewrite H. cbn.
  unfold Exec.bind, Exec.of_outcome, content_type_startswith. rewrite Hc.
  eexists. reflexivity.
Qed.

Lemma record_post_commit_fails r f ct e :
  UploadResult.http_status_code r = 200 ->
  UploadFile.content_type file = Some ct ->
  Env.commit env = Raises e ->
  record_post env file caption user r f =
    ({| temp_file_path := temp_file_path f;
        world := with_session
                   (session_new (world f)
                      ++ [new_post user caption r (startswith ct "video/")])
                   (session_deleted (world f)) (world f) |},
     Raises e).
Proof.
  intros H Hc He. unfold record_post. rewrite H. cbn.
  unfold Exec.bind, Exec.of_outcome, content_type_startswith, in_world, session_add,
    session_commit, Exec.bind, Exec.modify, Exec.of_outcome.
  rewrite Hc. cbn. rewrite He. reflexivity.
Qed.

Lemma record_post_committed r f ct :
  UploadResult.http_status_code r = 200 ->
  UploadFile.content_type file = Some ct ->
  Env.commit env = Returns tt ->
  session_new (world f) = [] ->
  session_deleted (world f) = [] ->
  let row := NewPost.materialize (Env.defaults env 0)
               (new_post user caption r (startswith ct "video/")) in
  record_post env file caption user r f =
    ({| temp_file_path := temp_file_path f;
        world := with_posts (posts (world f) ++ [row]) (world f) |},
     match Env.refresh env with
     | Returns _ => Returns (Some row)
     | Raises e => Raises e
     end).
Proof.
  intros H Hc He Hn Hd row. unfold record_post. rewrite H. cbn.
  unfold Exec.bind, Exec.of_outcome, content_type_startswith, in_world, session_add,
    session_commit, session_refresh, flushed_rows, Exec.bind, Exec.modify, Exec.of_outcome,
    Exec.get, Exec.ret.
  rewrite Hc. cbn -[marked_deleted]. rewrite He. cbn -[marked_deleted].
  rewrite Hn. cbn -[marked_deleted].
  rewrite filter_not_marked by exact Hd.
  fold row.
  destruct f as [t w]; cbn in *. unfold with_session, with_posts; cbn.
  rewrite Hn, Hd.
  destruct (Env.refresh env); reflexivity.
Qed.

Lemma upload_file_finally_bound path w :
  upload_file_finally {| temp_file_path := Some path; world := w |} =
    ({| temp_file_path := Some path; world := cleanup path w |}, Returns tt).
Proof.
  unfold upload_file_finally, cleanup, Exec.bind, read_temp_file_path, Exec.bind, Exec.get,
    Exec.ret, in_world, unlink, close_body, Exec.bind, Exec.modify, Exec.get.
  cbn -[exists_ String.eqb].
  destruct (negb (String.eqb path "")); cbn -[exists_]; [|reflexivity].
  destruct (exists_ path w) eqn:E; cbn -[exists_]; [|reflexivity].
  rewrite E. reflexivity.
Qed.

End RecordPost.

Section UploadRuns.

Variable form : option string.

(** When the temporary file cannot be created, [temp_file_path] is still
    unbound when the [finally] block reads it: the block raises, its
    exception replaces the [HTTPException] of the [except] clause, and
    [file.file.close()] is not reached. *)
Lemma post_upload_create_fails w e :
  Env.NamedTemporaryFile env (snd (splitext (UploadFile.filename file))) = Raises e ->
  post_upload env file form user w =
    (get_async_session w,
     Raises (PyError "UnboundLocalError"
       "cannot access local variable 'temp_file_path' where it is not associated with a value")).
Proof.
  intros H.
  unfold post_upload, upload_file, upload_file_try, Exec.try_finally, Exec.try_except,
    Exec.bind, Exec.raise.
  rewrite (stage_upload_create_fails _ _ H). reflexivity.
Qed.

Variable w : World.
Variable path : string.
Hypothesis Hcreated :
  Env.NamedTemporaryFile env (snd (splitext (UploadFile.filename file))) = Returns path.

Lemma exists_staged : exists_ path (staged_world path w) = true.
Proof. apply exists_cons_same. Qed.

Ltac run_staged :=
  unfold post_upload, upload_file, upload_file_try, Exec.try_finally, Exec.try_except,
    Exec.bind, Exec.raise;
  rewrite (stage_upload_created _ path Hcreated);
  cbn [world temp_file_path];
  change (with_files (path :: files (get_async_session w)) (get_async_session w))
    with (staged_world path w).

Ltac run_opened Ho Hi :=
  rewrite (forward_to_storage_opened _ _ exists_staged Ho), Hi;
  change (with_open_handles (_ :: open_handles (staged_world path w)) (staged_world path w))
    with (opened_world path w).

Lemma post_upload_copy_fails e :
  Env.copyfileobj env = Raises e ->
  post_upload env file form user w =
    (cleanup path (staged_world path w), Raises (HTTPException 500 (str e))).
Proof.
  intros Hc. run_staged. rewrite Hc.
  rewrite upload_file_finally_bound. reflexivity.
Qed.

Lemma post_upload_open_fails e :
  Env.copyfileobj env = Returns tt ->
  Env.open_rb env = Raises e ->
  post_upload env file form user w =
    (cleanup path (staged_world path w), Raises (HTTPException 500 (str e))).
Proof.
  intros Hc Ho. run_staged. rewrite Hc.
  rewrite (forward_to_storage_open_fails _ _ _ exists_staged Ho).
  rewrite upload_file_finally_bound. reflexivity.
Qed.

Lemma post_upload_storage_fails e :
  Env.copyfileobj env = Returns tt ->
  Env.open_rb env = Returns tt ->
  Env.imagekit_upload_file env (UploadFile.filename file) = Raises e ->
  post_upload env file form user w =
    (cleanup path (opened_world path w), Raises (HTTPException 500 (str e))).
Proof.
  intros Hc Ho Hi. run_staged. rewrite Hc. run_opened Ho Hi.
  rewrite upload_file_finally_bound. reflexivity.
Qed.

Lemma post_upload_not_200 r :
  Env.copyfileobj env = Returns tt ->
  Env.open_rb env = Returns tt ->
  Env.imagekit_upload_file env (UploadFile.filename file) = Returns r ->
  UploadResult.http_status_code r <> 200 ->
  post_upload env file form user w = (cleanup path (opened_world path w), Returns None).
Proof.
  intros Hc Ho Hi Hs. run_staged. rewrite Hc. run_opened Ho Hi.
  rewrite (record_post_not_200 (default "" form) _ _ Hs).
  rewrite upload_file_finally_bound. reflexivity.
Qed.

Lemma post_upload_no_content_type r :
  Env.copyfileobj env = Returns tt ->
  Env.open_rb env = Returns tt ->
  Env.imagekit_upload_file env (UploadFile.filename file) = Returns r ->
  UploadResult.http_status_code r = 200 ->
  UploadFile.content_type file = None ->
  exists e, post_upload env file form user w =
    (cleanup path (opened_world path w), Raises (HTTPException 500 (str e))).
Proof.
  intros Hc Ho Hi Hs Hct. run_staged. rewrite Hc. run_opened Ho Hi.
  destruct (record_post_no_content_type (default "" form) r
    {| temp_file_path := Some path; world := opened_world path w |} Hs Hct) as [e ->].
  rewrite upload_file_finally_bound. eexists. reflexivity.
Qed.

Lemma post_upload_commit_fails r ct e :
  Env.copyfileobj env = Returns tt ->
  Env.open_rb env = Returns tt ->
  Env.imagekit_upload_file env (UploadFile.filename file) = Returns r ->
  UploadResult.http_status_code r = 200 ->
  UploadFile.content_type file = Some ct ->
  Env.commit env = Raises e ->
  post_upload env file form user w =
    (cleanup path
       (with_session [new_post user (default "" form) r (startswith ct "video/")] []
          (opened_world path w)),
     Raises (HTTPException 500 (str e))).
Proof.
  intros Hc Ho Hi Hs Hct Hk. run_staged. rewrite Hc. run_opened Ho Hi.
  rewrite (record_post_commit_fails (default "" form) _ _ _ _ Hs Hct Hk).
  cbn [world temp_file_path].
  rewrite upload_file_finally_bound. reflexivity.
Qed.

Lemma post_upload_committed r ct :
  Env.copyfileobj env = Returns tt ->
  Env.open_rb env = Returns tt ->
  Env.imagekit_upload_file env (UploadFile.filename file) = Returns r ->
  UploadResult.http_status_code r = 200 ->
  UploadFile.content_type file = Some ct ->
  Env.commit env = Returns tt ->
  let row := NewPost.materialize (Env.defaults env 0)
               (new_post user (default "" form) r (startswith ct "video/")) in
  post_upload env file form user w =
    (cleanup path (with_posts (posts w ++ [row]) (opened_world path w)),
     match Env.refresh env with
     | Returns _ => Returns (Some row)
     | Raises e => Raises (HTTPException 500 (str e))
     end).
Proof.
  intros Hc Ho Hi Hs Hct Hk row. run_staged. rewrite Hc. run_opened Ho Hi.
  rewrite (record_post_committed (default "" form) _ _ _ Hs Hct Hk) by reflexivity.
  cbn [world temp_file_path]. fold row.
  destruct (Env.refresh env); rewrite upload_file_finally_bound; reflexivity.
Qed.

End UploadRuns.

End UploadSteps.

(** ** What the [finally] block leaves of a world *)

Lemma posts_cleanup path w : posts (cleanup path w) = posts w.
Proof. unfold cleanup. destruct (_ && _); reflexivity. Qed.

Lemma users_cleanup path w : users (cleanup path w) = users w.
Proof. unfold cleanup. destruct (_ && _); reflexivity. Qed.

Lemma open_handles_cleanup path w : open_handles (cleanup path w) = open_handles w.
Proof. unfold cleanup. destruct (_ && _); reflexivity. Qed.

Lemma body_closed_cleanup path w : body_closed (cleanup path w) = true.
Proof. reflexivity. Qed.

Lemma files_cleanup path w :
  path <> "" -> ~ In path (files (cleanup path w)).
Proof.
  intros Hne Hin. unfold cleanup in Hin.
  destruct (String.eqb_spec path ""); [contradiction|]. cbn [negb andb] in Hin.
  destruct (exists_ path w) eqn:E; cbn in Hin.
  - apply list_elem_of_In, list_elem_of_filter in Hin. destruct Hin as [Hp _]. by apply Hp.
  - apply bool_decide_eq_false in E. apply E. by apply list_elem_of_In.
Qed.

(** [s.startswith(prefix)] holds exactly of the strings that continue
    [prefix]. *)
Lemma startswith_spec s prefix :
  startswith s prefix = true <-> exists rest, s = prefix ++ rest.
Proof.
  unfold startswith. revert s. induction prefix as [|c prefix IH]; intros s.
  - destruct s; cbn; split; eauto.
  - destruct s as [|d s]; cbn.
    + split; [discriminate | intros [rest H]; discriminate].
    + destruct (Ascii.ascii_dec c d) as [->|Hcd].
      * rewrite IH. split; intros [rest H]; exists rest; [by rewrite H | by inversion H].
      * split; [discriminate | intros [rest H]; inversion H; congruence].
Qed.

Lemma not_self_snoc {A} (l : list A) x : l <> (l ++ [x])%list.
Proof.
  intros H. apply (f_equal (@length A)) in H. rewrite length_app in H. cbn in H. lia.
Qed.

(** Case analysis on what the collaborators of an upload do, rewriting the
    request with the matching run lemma. *)
Ltac upload_cases env file caption user w :=
  let path := fresh "path" in let e := fresh "e" in let r := fresh "r" in
  let ct := fresh "ct" in
  let Ht := fresh "Ht" in let Hc := fresh "Hc" in let Ho := fresh "Ho" in
  let Hi := fresh "Hi" in let Hs := fresh "Hs" in let Hct := fresh "Hct" in
  let Hk := fresh "Hk" in let Hx := fresh "Hx" in
  destruct (Env.NamedTemporaryFile env (snd (splitext (UploadFile.filename file))))
    as [path|e] eqn:Ht;
  [ destruct (Env.copyfileobj env) as [[]|e] eqn:Hc;
    [ destruct (Env.open_rb env) as [[]|e] eqn:Ho;
      [ destruct (Env.imagekit_upload_file env (UploadFile.filename file))
          as [r|e] eqn:Hi;
        [ destruct (Z.eq_dec (UploadResult.http_status_code r) 200) as [Hs|Hs];
          [ destruct (UploadFile.content_type file) as [ct|] eqn:Hct;
            [ destruct (Env.commit env) as [[]|e] eqn:Hk;
              [ pose proof (post_upload_committed env file user caption w path Ht
                              r ct Hc Ho Hi Hs Hct Hk) as Hx
              | pose proof (post_upload_commit_fails env file user caption w path Ht
                              r ct e Hc Ho Hi Hs Hct Hk) as Hx ]
            | destruct (post_upload_no_content_type env file user caption w path Ht
                          r Hc Ho Hi Hs Hct) as [e Hx] ]
          | pose proof (post_upload_not_200 env file user caption w path Ht
                          r Hc Ho Hi Hs) as Hx ]
        | pose proof (post_upload_storage_fails env file user caption w path Ht
                        e Hc Ho Hi) as Hx ]
      | pose proof (post_upload_open_fails env file user caption w path Ht e Hc Ho) as Hx ]
    | pose proof (post_upload_copy_fails env file user caption w path Ht e Hc) as Hx ]
  | pose proof (post_upload_create_fails env file user caption w e Ht) as Hx ];
  cbv zeta in Hx.

(** ** Upload *)

(** A row reaches table [post] only through the branch that tests the
    Storage status: whenever an upload changes the table, Storage had
    answered with status 200. *)
Lemma upload_commits_only_after_200 env file caption user w :
  posts (fst (post_upload env file caption user w)) <> posts w ->
  exists path r,
    storage_responded env file path r /\ UploadResult.http_status_code r = 200.
Proof.
  intros Hne.
  upload_cases env file caption user w; rewrite Hx in Hne; cbn [fst] in Hne;
    try (rewrite ?posts_cleanup in Hne; cbn in Hne; congruence).
  exists path, r. unfold storage_responded. auto.
Qed.

(** Every exception of an upload whose temporary file was created is
    answered as status 500 with the text of the exception as detail. *)
Lemma upload_error_after_staging_is_500 env file caption user w path e :
  Env.NamedTemporaryFile env (snd (splitext (UploadFile.filename file))) = Returns path ->
  snd (post_upload env file caption user w) = Raises e ->
  exists cause, e = HTTPException 500 (str cause).
Proof.
  intros Hp He.
  upload_cases env file caption user w; rewrite Hx in He; cbn [snd] in He;
    try discriminate; try (injection He as <-; eauto; fail).
  destruct (Env.refresh env); [discriminate | injection He as <-; eauto].
Qed.

(** The temporary file is gone after every upload that created it. *)
Lemma upload_temp_file_removed env file caption user w path :
  Env.NamedTemporaryFile env (snd (splitext (UploadFile.filename file))) = Returns path ->
  path <> "" ->
  ~ In path (files (fst (post_upload env file caption user w))).
Proof.
  intros Hp Hne.
  upload_cases env file caption user w; try discriminate;
    injection Hp as ->; rewrite Hx; cbn [fst]; by apply files_cleanup.
Qed.

(** C1, as amended.  When Storage has answered an upload whose content
    type is declared, and the store accepts the commit and the refresh,
    the upload inserts and commits a new row of table [post] if and only
    if the Storage status code equals 200; when it does, that row has the
    caller's id as [user_id], the caption as given (the empty string when
    the form has none), [url] and [file_name] from the Storage response,
    the [id] and [created_at] the store generated, and it is the value
    returned to the caller. *)
Theorem upload_commits_iff_status_200 env file caption user w path r ct :
  storage_responded env file path r ->
  UploadFile.content_type file = Some ct ->
  Env.commit env = Returns tt ->
  Env.refresh env = Returns tt ->
  ((exists p, inserted w (fst (post_upload env file caption user w)) p)
   <-> UploadResult.http_status_code r = 200) /\
  (UploadResult.http_status_code r = 200 ->
   exists p,
     inserted w (fst (post_upload env file caption user w)) p /\
     snd (post_upload env file caption user w) = Returns (Some p) /\
     Post.user_id p = User.id user /\
     Post.caption p = default "" caption /\
     Post.url p = UploadResult.url r /\
     Post.file_name p = UploadResult.name r /\
     Post.id p = fst (Env.defaults env 0) /\
     Post.created_at p = snd (Env.defaults env 0)).
Proof.
  intros (Ht & Hc & Ho & Hi) Hct Hk Hr.
  assert (Hyes : UploadResult.http_status_code r = 200 ->
    exists p,
     inserted w (fst (post_upload env file caption user w)) p /\
     snd (post_upload env file caption user w) = Returns (Some p) /\
     Post.user_id p = User.id user /\
     Post.caption p = default "" caption /\
     Post.url p = UploadResult.url r /\
     Post.file_name p = UploadResult.name r /\
     Post.id p = fst (Env.defaults env 0) /\
     Post.created_at p = snd (Env.defaults env 0)).
  { intros Hs.
    pose proof (post_upload_committed env file user caption w path Ht r ct
                  Hc Ho Hi Hs Hct Hk) as Hx.
    cbv zeta in Hx. rewrite Hr in Hx. rewrite Hx. cbn [fst snd].
    eexists. unfold inserted. rewrite posts_cleanup. cbn.
    repeat split; reflexivity. }
  split; [|exact Hyes].
  split.
  - intros [p Hp].
    destruct (Z.eq_dec (UploadResult.http_status_code r) 200) as [Hs|Hs]; [exact Hs|].
    exfalso. unfold inserted in Hp.
    rewrite (post_upload_not_200 env file user caption w path Ht r Hc Ho Hi Hs) in Hp.
    cbn [fst] in Hp. rewrite posts_cleanup in Hp. cbn in Hp.
    by apply not_self_snoc in Hp.
  - intros Hs. destruct (Hyes Hs) as (p & Hp & _). by exists p.
Qed.

Lemma upload_commits_iff_status_200_witness :
  storage_responded (env_status 200) clip "/tmp/tmpk3x9.mp4" (stored 200 "cat.mp4") /\
  ((exists p,
      inserted empty_world
        (fst (post_upload (env_status 200) clip (Some "hello") alice empty_world)) p)
   <-> UploadResult.http_status_code (stored 200 "cat.mp4") = 200).
Proof.
  assert (H : storage_responded (env_status 200) clip "/tmp/tmpk3x9.mp4"
                (stored 200 "cat.mp4")).
  { repeat split; reflexivity. }
  split; [exact H|].
  exact (proj1 (upload_commits_iff_status_200 (env_status 200) clip (Some "hello")
                  alice empty_world "/tmp/tmpk3x9.mp4" (stored 200 "cat.mp4")
                  "video/mp4" H eq_refl eq_refl eq_refl)).
Defined.

(** C1, as first stated, fails: Storage answers 200, the store then
    refuses the commit, and no row is inserted; the request ends in
    status 500 with the store's message. *)
Lemma upload_status_200_commit_refused :
  storage_responded env_commit_error clip "/tmp/tmpk3x9.mp4" (stored 200 "cat.mp4") /\
  UploadResult.http_status_code (stored 200 "cat.mp4") = 200 /\
  snd (post_upload env_commit_error clip (Some "hello") alice empty_world)
    = Raises (HTTPException 500 "connection was closed") /\
  ~ (exists p,
       inserted empty_world
         (fst (post_upload env_commit_error clip (Some "hello") alice empty_world)) p).
Proof.
  split; [repeat split; reflexivity|].
  split; [reflexivity|].
  split; [reflexivity|].
  intros [p Hp]. unfold inserted in Hp. vm_compute in Hp. discriminate.
Qed.

(** C2 at its failing input.  When [tempfile.NamedTemporaryFile] raises,
    the upload does not end in the [HTTPException] with status 500 that
    carries the text of that error: [temp_file_path] was never bound (line
    42 initialises [temp_file], line 76 reads [temp_file_path]), so the
    [finally] block raises [UnboundLocalError], which replaces the
    exception of the [except] clause and is what reaches the caller. *)
Theorem upload_tempfile_error_loses_message env file caption user w e :
  Env.NamedTemporaryFile env (snd (splitext (UploadFile.filename file))) = Raises e ->
  snd (post_upload env file caption user w)
    = Raises (PyError "UnboundLocalError"
        "cannot access local variable 'temp_file_path' where it is not associated with a value") /\
  snd (post_upload env file caption user w) <> Raises (HTTPException 500 (str e)).
Proof.
  intros H.
  unfold post_upload, upload_file, upload_file_try, Exec.try_finally, Exec.try_except,
    Exec.bind, Exec.raise.
  rewrite (stage_upload_create_fails env file _ e H). cbn.
  split; [reflexivity | discriminate].
Qed.

Lemma upload_tempfile_error_loses_message_witness :
  Env.NamedTemporaryFile env_no_tempfile (snd (splitext (UploadFile.filename clip)))
    = Raises (PyError "OSError" "[Errno 28] No space left on device") /\
  snd (post_upload env_no_tempfile clip (Some "hello") alice empty_world)
    = Raises (PyError "UnboundLocalError"
        "cannot access local variable 'temp_file_path' where it is not associated with a value") /\
  snd (post_upload env_no_tempfile clip (Some "hello") alice empty_world)
    <> Raises (HTTPException 500 "[Errno 28] No space left on device").
Proof.
  split; [reflexivity|].
  exact (upload_tempfile_error_loses_message env_no_tempfile clip (Some "hello") alice
           empty_world (PyError "OSError" "[Errno 28] No space left on device") eq_refl).
Defined.

(** C4.  Whenever an upload returns a post, its content type was declared,
    and the post's [file_type] is ["video"] exactly when that content type
    starts with ["video/"] and ["image"] exactly when it does not: the
    field is computed from the content type and from nothing else. *)
Theorem upload_file_type_from_content_type env file caption user w w' p :
  post_upload env file caption user w = (w', Returns (Some p)) ->
  exists ct,
    UploadFile.content_type file = Some ct /\
    Post.file_type p = (if startswith ct "video/" then "video" else "image") /\
    (Post.file_type p = "video" <-> exists rest, ct = "video/" ++ rest) /\
    (Post.file_type p = "image" <-> ~ exists rest, ct = "video/" ++ rest).
Proof.
  intros H.
  upload_cases env file caption user w; rewrite Hx in H; try discriminate.
  destruct (Env.refresh env); [|discriminate].
  injection H as _ <-. exists ct. split; [reflexivity|]. split; [reflexivity|].
  cbn [NewPost.materialize Post.file_type new_post NewPost.file_type].
  rewrite <- startswith_spec.
  destruct (startswith ct "video/"); split; split; intros; congruence.
Qed.

Lemma upload_file_type_from_content_type_witness :
  snd (post_upload (env_status 200) clip (Some "hello") alice empty_world)
    = Returns (Some clip_post) /\
  exists ct,
    UploadFile.content_type clip = Some ct /\
    Post.file_type clip_post = (if startswith ct "video/" then "video" else "image") /\
    (Post.file_type clip_post = "video" <-> exists rest, ct = "video/" ++ rest) /\
    (Post.file_type clip_post = "image" <-> ~ exists rest, ct = "video/" ++ rest).
Proof.
  split; [reflexivity|].
  apply (upload_file_type_from_content_type (env_status 200) clip (Some "hello") alice
           empty_world
           (fst (post_upload (env_status 200) clip (Some "hello") alice empty_world))).
  reflexivity.
Defined.

(** ** Feed *)

Lemma insert_desc_Permutation p l : Permutation (insert_desc p l) (p :: l).
Proof.
  induction l as [|q l IH]; cbn; [reflexivity|].
  destruct (Post.created_at q <=? Post.created_at p); [reflexivity|].
  rewrite IH. apply perm_swap.
Qed.

Lemma order_by_created_at_desc_Permutation rows :
  Permutation (order_by_created_at_desc rows) rows.
Proof.
  induction rows as [|p rows IH]; cbn; [reflexivity|].
  rewrite insert_desc_Permutation. by apply perm_skip.
Qed.

Lemma insert_desc_sorted p l :
  StronglySorted later_first l -> StronglySorted later_first (insert_desc p l).
Proof.
  induction l as [|q l IH]; intros Hs; cbn.
  - repeat constructor.
  - apply StronglySorted_inv in Hs. destruct Hs as [Hl Hq].
    destruct (Z.leb_spec (Post.created_at q) (Post.created_at p)) as [Hle|Hlt].
    + constructor; [by constructor|].
      constructor; [exact Hle|].
      eapply Forall_impl; [exact Hq|].
      unfold later_first. intros x Hx. lia.
    + constructor; [by apply IH|].
      rewrite insert_desc_Permutation.
      constructor; [unfold later_first; lia | exact Hq].
Qed.

Lemma order_by_created_at_desc_sorted rows :
  StronglySorted later_first (order_by_created_at_desc rows).
Proof.
  induction rows as [|p rows IH]; cbn; [constructor|]. by apply insert_desc_sorted.
Qed.

(** The loop of lines 94-108 maps the rows one by one, in order. *)
Lemma append_loop_map {A B} (f : A -> B) (l : list A) (acc : list B) :
  fold_left (fun (acc : list B) x => (acc ++ [f x])%list) l acc = (acc ++ map f l)%list.
Proof.
  revert acc. induction l as [|x l IH]; intros acc; cbn.
  - by rewrite app_nil_r.
  - rewrite IH, <- app_assoc. reflexivity.
Qed.

Section Feed.

Variable str_UUID : UUID -> string.
Variable isoformat : datetime -> string.
Variable user : User.t.

Lemma get_feed_run w :
  get_feed str_UUID isoformat user w =
    (w, Returns (map (post_data str_UUID isoformat user (user_dict_of (users w)))
                     (order_by_created_at_desc (posts w)))).
Proof.
  unfold get_feed, select_posts_by_created_at_desc, select_users, Exec.bind, Exec.get,
    Exec.ret.
  cbn. rewrite append_loop_map. reflexivity.
Qed.

(** Rows whose id no user row carries leave the dictionary without an
    entry for it. *)
Lemma user_dict_lookup_absent us (d : gmap N string) k :
  (forall u, In u us -> User.id u <> k) ->
  fold_left (fun d u => <[User.id u := User.email u]> d) us d !! k = d !! k.
Proof.
  revert d. induction us as [|v us IH]; intros d H; cbn; [reflexivity|].
  rewrite IH by (intros u Hu; apply H; by right).
  apply lookup_insert_ne. apply H. by left.
Qed.

(** With [id] a key of table [user], the dictionary maps the id of every
    user row to that row's email. *)
Lemma user_dict_lookup_present us (d : gmap N string) u :
  NoDup (map User.id us) ->
  In u us ->
  fold_left (fun d u => <[User.id u := User.email u]> d) us d !! User.id u
    = Some (User.email u).
Proof.
  revert d. induction us as [|v us IH]; intros d Hnd Hin; [destruct Hin|].
  cbn in Hnd. apply NoDup_cons in Hnd. destruct Hnd as [Hv Hnd].
  destruct Hin as [->|Hin]; cbn.
  - rewrite user_dict_lookup_absent.
    + apply lookup_insert_eq.
    + intros x Hx Heq. apply Hv. rewrite <- Heq.
      apply list_elem_of_In. by apply in_map.
  - by apply IH.
Qed.

End Feed.

(** C5.  For every state of the store the feed call returns, and what it
    returns is the projection, row by row, of a rearrangement of table
    [post] that is sorted by [created_at] descending; so every row of the
    table has its projection in the feed. *)
Theorem feed_sorted_by_created_at_desc
    (str_UUID : UUID -> string) (isoformat : datetime -> string) user w :
  exists rows items,
    snd (get_feed str_UUID isoformat user w) = Returns items /\
    items = map (post_data str_UUID isoformat user (user_dict_of (users w))) rows /\
    StronglySorted later_first rows /\
    Permutation rows (posts w) /\
    (forall post, In post (posts w) ->
       In (post_data str_UUID isoformat user (user_dict_of (users w)) post) items).
Proof.
  exists (order_by_created_at_desc (posts w)). eexists.
  rewrite get_feed_run. cbn [snd].
  split; [reflexivity|]. split; [reflexivity|].
  split; [apply order_by_created_at_desc_sorted|].
  split; [apply order_by_created_at_desc_Permutation|].
  intros post Hin. apply in_map.
  eapply Permutation_in; [|exact Hin].
  symmetry. apply order_by_created_at_desc_Permutation.
Qed.

(** C6.  In the feed a caller gets, the [is_owner] field of each
    projection is true exactly when the projected post's [user_id] is the
    caller's id. *)
Theorem feed_is_owner_iff_author
    (str_UUID : UUID -> string) (isoformat : datetime -> string) user w :
  exists items,
    snd (get_feed str_UUID isoformat user w) = Returns items /\
    Forall2 (fun post item =>
               PostData.is_owner item = true <-> Post.user_id post = User.id user)
            (order_by_created_at_desc (posts w)) items.
Proof.
  eexists. rewrite get_feed_run. cbn [snd]. split; [reflexivity|].
  induction (order_by_created_at_desc (posts w)) as [|post rows IH]; cbn;
    constructor; [|exact IH].
  cbn. apply N.eqb_eq.
Qed.

(** C7.  With [id] a key of table [user], the [email] field of each
    projection is the email of the user row whose id is the post's
    [user_id] when there is such a row, and the string ["Unknown"] when
    there is none. *)
Theorem feed_email_of_author_or_unknown
    (str_UUID : UUID -> string) (isoformat : datetime -> string) user w :
  NoDup (map User.id (users w)) ->
  exists items,
    snd (get_feed str_UUID isoformat user w) = Returns items /\
    Forall2 (fun post item =>
               (forall author, In author (users w) ->
                  User.id author = Post.user_id post ->
                  PostData.email item = User.email author) /\
               ((forall u, In u (users w) -> User.id u <> Post.user_id post) ->
                  PostData.email item = "Unknown"))
            (order_by_created_at_desc (posts w)) items.
Proof.
  intros Hkey. eexists. rewrite get_feed_run. cbn [snd]. split; [reflexivity|].
  induction (order_by_created_at_desc (posts w)) as [|post rows IH]; cbn;
    constructor; [|exact IH].
  cbn. unfold dict_get, user_dict_of. split.
  - intros author Hin <-. by rewrite user_dict_lookup_present.
  - intros Hnone. rewrite user_dict_lookup_absent by exact Hnone.
    by rewrite lookup_empty.
Qed.

Lemma feed_email_of_author_or_unknown_witness :
  NoDup (map User.id (users three_posts)) /\
  exists items,
    snd (get_feed pretty pretty bob three_posts) = Returns items /\
    Forall2 (fun post item =>
               (forall author, In author (users three_posts) ->
                  User.id author = Post.user_id post ->
                  PostData.email item = User.email author) /\
               ((forall u, In u (users three_posts) -> User.id u <> Post.user_id post) ->
                  PostData.email item = "Unknown"))
            (order_by_created_at_desc (posts three_posts)) items.
Proof.
  assert (Hkey : NoDup (map User.id (users three_posts))) by compute_done.
  split; [exact Hkey|].
  exact (feed_email_of_author_or_unknown pretty pretty bob three_posts Hkey).
Defined.

(** The emails the sample feed shows: the author of the latest post has
    no user row. *)
Example feed_emails_of_three_posts :
  match snd (get_feed pretty pretty bob three_posts) with
  | Returns items => map PostData.email items
  | Raises _ => []
  end = ["Unknown"; "alice@example.com"; "alice@example.com"].
Proof. reflexivity. Qed.

(** C10.  The feed call leaves the world as it found it: no row of either
    table is inserted, updated or deleted, and nothing is left pending in
    the session. *)
Theorem feed_is_read_only
    (str_UUID : UUID -> string) (isoformat : datetime -> string) user w :
  fst (get_feed str_UUID isoformat user w) = w.
Proof. rewrite get_feed_run. reflexivity. Qed.

(** ** Delete *)

Lemma select_post_by_id_absent post_uuid w :
  (forall post, In post (posts w) -> Post.id post <> post_uuid) ->
  select_post_by_id post_uuid w = (w, Returns None).
Proof.
  intros H. unfold select_post_by_id, Exec.bind, Exec.get, Exec.ret.
  replace (filter (fun r => Post.id r = post_uuid) (posts w)) with (@nil Post.t);
    [reflexivity|].
  symmetry. induction (posts w) as [|p l IH]; [reflexivity|].
  rewrite filter_cons. destruct (decide (Post.id p = post_uuid)) as [Heq|_].
  - exfalso. apply (H p); [by left | exact Heq].
  - apply IH. intros q Hq. apply H. by right.
Qed.

Lemma select_post_by_id_present post_uuid w :
  (exists post, In post (posts w) /\ Post.id post = post_uuid) ->
  exists post,
    select_post_by_id post_uuid w = (w, Returns (Some post)) /\
    In post (posts w) /\ Post.id post = post_uuid.
Proof.
  intros (p0 & Hin & Hid).
  unfold select_post_by_id, Exec.bind, Exec.get, Exec.ret.
  assert (Hf : In p0 (filter (fun r => Post.id r = post_uuid) (posts w))).
  { apply list_elem_of_In, list_elem_of_filter. split; [exact Hid|].
    by apply list_elem_of_In. }
  destruct (filter (fun r => Post.id r = post_uuid) (posts w)) as [|q l] eqn:E;
    [destruct Hf|].
  exists q. split; [reflexivity|].
  assert (Hq : q ∈ filter (fun r => Post.id r = post_uuid) (posts w)).
  { rewrite E. by left. }
  apply list_elem_of_filter in Hq. destruct Hq as [Hqid Hqin].
  split; [by apply list_elem_of_In | exact Hqid].
Qed.

(** C8 at its failing input.  For a well-formed identifier that no row of
    table [post] carries, the handler raises its 404 inside the [try], the
    [except Exception] clause catches it, and the caller is answered with
    status 500 and the text of the 404 as detail.  The world is
    unchanged. *)
Theorem delete_missing_post_answers_500
    (UUID_of_hex : string -> outcome UUID) env post_id user w post_uuid :
  UUID_of_hex post_id = Returns post_uuid ->
  (forall post, In post (posts w) -> Post.id post <> post_uuid) ->
  delete_post UUID_of_hex env post_id user w
    = (w, Raises (HTTPException 500 "404: Post not found")) /\
  http_status (snd (delete_post UUID_of_hex env post_id user w)) = 500.
Proof.
  intros Hparse Habsent.
  assert (H : delete_post UUID_of_hex env post_id user w
              = (w, Raises (HTTPException 500 "404: Post not found"))).
  { unfold delete_post, Exec.try_except, Exec.bind, Exec.of_outcome.
    rewrite Hparse, (select_post_by_id_absent _ _ Habsent). reflexivity. }
  rewrite H. split; reflexivity.
Qed.

Lemma delete_missing_post_answers_500_witness :
  sample_UUID_of_hex missing_post_id = Returns 40%N /\
  delete_post sample_UUID_of_hex (env_status 200) missing_post_id alice three_posts
    = (three_posts, Raises (HTTPException 500 "404: Post not found")) /\
  http_status (snd (delete_post sample_UUID_of_hex (env_status 200) missing_post_id alice three_posts))
    = 500.
Proof.
  split; [reflexivity|].
  apply (delete_missing_post_answers_500 sample_UUID_of_hex (env_status 200) missing_post_id alice
           three_posts 40%N); [reflexivity|].
  intros post Hin. cbn in Hin.
  destruct Hin as [<-|[<-|[<-|[]]]]; discriminate.
Defined.

(** C9 at its failing input.  When the identifier names rows of table
    [post] and none of them belongs to the caller, the handler raises its
    403 inside the [try], the [except Exception] clause catches it, and the
    caller is answered with status 500 and the text of the 403 as detail.
    The world is unchanged: the post stays. *)
Theorem delete_foreign_post_answers_500
    (UUID_of_hex : string -> outcome UUID) env post_id user w post_uuid :
  UUID_of_hex post_id = Returns post_uuid ->
  (exists post, In post (posts w) /\ Post.id post = post_uuid) ->
  (forall post, In post (posts w) -> Post.id post = post_uuid ->
     Post.user_id post <> User.id user) ->
  delete_post UUID_of_hex env post_id user w
    = (w, Raises (HTTPException 500
                    "403: You didn't have access to delete this post.")) /\
  http_status (snd (delete_post UUID_of_hex env post_id user w)) = 500.
Proof.
  intros Hparse Hexists Hforeign.
  destruct (select_post_by_id_present _ _ Hexists) as (post & Hsel & Hin & Hid).
  assert (H : delete_post UUID_of_hex env post_id user w
              = (w, Raises (HTTPException 500
                              "403: You didn't have access to delete this post."))).
  { unfold delete_post, Exec.try_except, Exec.bind, Exec.of_outcome.
    rewrite Hparse, Hsel.
    destruct (N.eqb_spec (Post.user_id post) (User.id user)) as [Heq|_].
    - exfalso. exact (Hforeign post Hin Hid Heq).
    - reflexivity. }
  rewrite H. split; reflexivity.
Qed.

Lemma delete_foreign_post_answers_500_witness :
  sample_UUID_of_hex first_post_id = Returns 11%N /\
  delete_post sample_UUID_of_hex (env_status 200) first_post_id bob three_posts
    = (three_posts,
       Raises (HTTPException 500 "403: You didn't have access to delete this post.")) /\
  http_status (snd (delete_post sample_UUID_of_hex (env_status 200) first_post_id bob three_posts))
    = 500.
Proof.
  split; [reflexivity|].
  apply (delete_foreign_post_answers_500 sample_UUID_of_hex (env_status 200) first_post_id bob
           three_posts 11%N); [reflexivity | |].
  - eexists. split; [left; reflexivity | reflexivity].
  - intros post Hin Hid. cbn in Hin.
    destruct Hin as [<-|[<-|[<-|[]]]]; cbn in Hid |- *; congruence.
Defined.

(** The owner's delete goes through: the row is gone after the commit. *)
Example delete_own_post :
  posts (fst (delete_post sample_UUID_of_hex (env_status 200) first_post_id alice three_posts))
    = tl (posts three_posts) /\
  snd (delete_post sample_UUID_of_hex (env_status 200) first_post_id alice three_posts)
    = Returns {| Ack.success := true; Ack.message := "Post Deleted Successfully" |}.
Proof. split; reflexivity. Qed.

(* ===================================================================== *)
(** * Further properties of the handlers                                  *)
(* ===================================================================== *)

(** ** Running [delete_post] path by path *)

Lemma marked_deleted_one w post r :
  session_deleted w = [post] ->
  marked_deleted w r = false <-> Post.id r <> Post.id post.
Proof.
  intros H. unfold marked_deleted. rewrite H. cbn.
  rewrite bool_decide_eq_false, list_elem_of_singleton. reflexivity.
Qed.

Lemma select_post_by_id_cases post_uuid w :
  (select_post_by_id post_uuid w = (w, Returns None) /\
   forall post, In post (posts w) -> Post.id post <> post_uuid) \/
  (exists post,
     select_post_by_id post_uuid w = (w, Returns (Some post)) /\
     In post (posts w) /\ Post.id post = post_uuid).
Proof.
  destruct (decide (Exists (fun post => Post.id post = post_uuid) (posts w))) as [He|Hn].
  - right. apply select_post_by_id_present.
    apply Exists_exists in He. destruct He as (post & Hin & Hid).
    exists post. split; [by apply list_elem_of_In | exact Hid].
  - left. assert (Ha : forall post, In post (posts w) -> Post.id post <> post_uuid).
    { intros post Hin Hid. apply Hn, Exists_exists. exists post.
      split; [by apply list_elem_of_In | exact Hid]. }
    split; [by apply select_post_by_id_absent | exact Ha].
Qed.

Section DeleteRuns.

Variable UUID_of_hex : string -> outcome UUID.
Variable env : Env.t.
Variable post_id : string.
Variable user : User.t.
Variable w : World.

Lemma delete_post_malformed e :
  UUID_of_hex post_id = Raises e ->
  delete_post UUID_of_hex env post_id user w = (w, Raises (HTTPException 500 (str e))).
Proof.
  intros H. unfold delete_post, Exec.try_except, Exec.bind, Exec.of_outcome.
  rewrite H. reflexivity.
Qed.

Lemma delete_post_commit_fails post_uuid post e :
  UUID_of_hex post_id = Returns post_uuid ->
  select_post_by_id post_uuid w = (w, Returns (Some post)) ->
  Post.user_id post = User.id user ->
  Env.commit env = Raises e ->
  delete_post UUID_of_hex env post_id user w
    = (with_session (session_new w) (session_deleted w ++ [post]) w,
       Raises (HTTPException 500 (str e))).
Proof.
  intros Hp Hs Ho Hc.
  unfold delete_post, Exec.try_except, Exec.bind, Exec.of_outcome.
  rewrite Hp, Hs. rewrite Ho, N.eqb_refl. cbn.
  unfold session_commit, Exec.bind, Exec.of_outcome. rewrite Hc. reflexivity.
Qed.

Lemma delete_post_commits post_uuid post :
  UUID_of_hex post_id = Returns post_uuid ->
  select_post_by_id post_uuid w = (w, Returns (Some post)) ->
  Post.id post = post_uuid ->
  Post.user_id post = User.id user ->
  Env.commit env = Returns tt ->
  session_new w = [] ->
  session_deleted w = [] ->
  delete_post UUID_of_hex env post_id user w
    = (with_posts (without_post post_uuid (posts w)) w, Returns deleted_ack).
Proof.
  intros Hp Hs Hid Ho Hc Hn Hd.
  unfold delete_post, Exec.try_except, Exec.bind, Exec.of_outcome.
  rewrite Hp, Hs. rewrite Ho, N.eqb_refl. cbn -[marked_deleted].
  unfold session_commit, flushed_rows, Exec.bind, Exec.of_outcome, Exec.get, Exec.modify,
    Exec.ret.
  rewrite Hc. cbn -[marked_deleted]. rewrite Hn, Hd. cbn -[marked_deleted].
  rewrite app_nil_r.
  rewrite (list_filter_iff _ (fun r => Post.id r <> post_uuid)).
  - destruct w; cbn in *. subst. reflexivity.
  - intros r. rewrite <- Hid. apply marked_deleted_one. reflexivity.
Qed.

End DeleteRuns.

(** With [id] a key of table [post], a row is known by its id. *)
Lemma post_key_unique (rows : list Post.t) a b :
  NoDup (map Post.id rows) -> In a rows -> In b rows -> Post.id a = Post.id b -> a = b.
Proof.
  induction rows as [|r rows IH]; intros Hnd Ha Hb Hid; [destruct Ha|].
  cbn in Hnd. apply NoDup_cons in Hnd. destruct Hnd as [Hr Hnd].
  assert (Hout : forall x, In x rows -> Post.id r <> Post.id x).
  { intros x Hx Heq. apply Hr. rewrite Heq. apply list_elem_of_In. by apply in_map. }
  destruct Ha as [<-|Ha], Hb as [<-|Hb]; [reflexivity | | |by apply IH].
  - exfalso. by apply (Hout b).
  - exfalso. by apply (Hout a).
Qed.

(** Every request to [delete_post] ends in one of two ways: an
    [HTTPException] with status 500 that leaves tables, files and handles
    as they were, or the acknowledgement, after a commit that removed the
    rows with the parsed id from table [post], one of which belonged to
    the caller. *)
Lemma delete_request_outcomes (UUID_of_hex : string -> outcome UUID) env post_id user w :
  (exists w' cause,
     delete_request UUID_of_hex env post_id user w
       = (w', Raises (HTTPException 500 (str cause))) /\
     posts w' = posts w /\ users w' = users w /\ files w' = files w /\
     open_handles w' = open_handles w /\ body_closed w' = body_closed w) \/
  (exists post_uuid post,
     UUID_of_hex post_id = Returns post_uuid /\
     In post (posts w) /\ Post.id post = post_uuid /\
     Post.user_id post = User.id user /\
     Env.commit env = Returns tt /\
     delete_request UUID_of_hex env post_id user w
       = (with_posts (without_post post_uuid (posts w)) (get_async_session w),
          Returns deleted_ack)).
Proof.
  unfold delete_request. set (w0 := get_async_session w).
  destruct (UUID_of_hex post_id) as [post_uuid|e] eqn:Hp.
  - destruct (select_post_by_id_cases post_uuid w0) as [[Hs Ha]|(post & Hs & Hin & Hid)].
    + left. exists w0, (HTTPException 404 "Post not found").
      split; [|by repeat split].
      unfold delete_post, Exec.try_except, Exec.bind, Exec.of_outcome.
      rewrite Hp, Hs. reflexivity.
    + destruct (N.eqb_spec (Post.user_id post) (User.id user)) as [Ho|Ho].
      * destruct (Env.commit env) as [[]|e] eqn:Hc.
        -- right. exists post_uuid, post.
           split; [reflexivity|]. split; [exact Hin|]. split; [exact Hid|].
           split; [exact Ho|]. split; [reflexivity|].
           apply (delete_post_commits UUID_of_hex env post_id user w0 post_uuid post);
             (assumption || reflexivity).
        -- left. eexists _, e.
           split; [exact (delete_post_commit_fails UUID_of_hex env post_id user w0
                            post_uuid post e Hp Hs Ho Hc)|].
           by repeat split.
      * left. exists w0, (HTTPException 403 "You didn't have access to delete this post.").
        split; [|by repeat split].
        unfold delete_post, Exec.try_except, Exec.bind, Exec.of_outcome.
        rewrite Hp, Hs.
        destruct (N.eqb_spec (Post.user_id post) (User.id user)); [contradiction|].
        reflexivity.
  - left. exists w0, e. split; [by apply delete_post_malformed | by repeat split].
Qed.

(** ** Delete: the paths the handler takes *)

(** X1.  With [id] a key of table [post]: when the identifier parses to
    the id of a row that belongs to the caller and the store accepts the
    commit, the delete request returns the acknowledgement and removes
    exactly that row: every other row of the table stays, and table
    [user] is untouched. *)
Theorem delete_own_post_removes_exactly_it
    (UUID_of_hex : string -> outcome UUID) env post_id user w post :
  NoDup (map Post.id (posts w)) ->
  UUID_of_hex post_id = Returns (Post.id post) ->
  In post (posts w) ->
  Post.user_id post = User.id user ->
  Env.commit env = Returns tt ->
  snd (delete_request UUID_of_hex env post_id user w) = Returns deleted_ack /\
  (forall row, In row (posts (fst (delete_request UUID_of_hex env post_id user w)))
               <-> In row (posts w) /\ row <> post) /\
  users (fst (delete_request UUID_of_hex env post_id user w)) = users w.
Proof.
  intros Hkey Hparse Hin Hown Hcommit.
  destruct (select_post_by_id_present (Post.id post) (get_async_session w))
    as (q & Hsel & Hq & Hqid); [by exists post|].
  assert (q = post) as -> by (by apply (post_key_unique (posts w))).
  unfold delete_request.
  rewrite (delete_post_commits UUID_of_hex env post_id user (get_async_session w)
             (Post.id post) post) by (assumption || reflexivity).
  cbn [fst snd]. split; [reflexivity|]. split; [|reflexivity].
  intros row. cbn. unfold without_post.
  rewrite <- !list_elem_of_In, list_elem_of_filter, !list_elem_of_In.
  split.
  - intros [Hid Hrow]. split; [exact Hrow|]. intros ->. by apply Hid.
  - intros [Hrow Hne]. split; [|exact Hrow].
    intros Heq. apply Hne. by apply (post_key_unique (posts w)).
Qed.

Lemma delete_own_post_removes_exactly_it_witness :
  NoDup (map Post.id (posts three_posts)) /\
  snd (delete_request sample_UUID_of_hex (env_status 200) first_post_id alice three_posts)
    = Returns deleted_ack /\
  map Post.id
    (posts (fst (delete_request sample_UUID_of_hex (env_status 200) first_post_id alice three_posts)))
    = [12%N; 13%N].
Proof.
  assert (Hkey : NoDup (map Post.id (posts three_posts))) by compute_done.
  split; [exact Hkey|].
  split; [|reflexivity].
  exact (proj1 (delete_own_post_removes_exactly_it sample_UUID_of_hex (env_status 200) first_post_id
                  alice three_posts
                  {| Post.id := 11; Post.user_id := 1; Post.caption := "first";
                     Post.url := "https://ik.imagekit.io/demo/a.png";
                     Post.file_type := "image"; Post.file_name := "a.png";
                     Post.created_at := 100 |}
                  Hkey eq_refl (or_introl eq_refl) eq_refl eq_refl)).
Defined.

(** X2.  Deleting twice: after a delete request that returned the
    acknowledgement, a second request for the same identifier finds no
    row, is answered with status 500 carrying the text of the 404, and
    changes nothing. *)
Theorem delete_twice_second_finds_nothing
    (UUID_of_hex : string -> outcome UUID) env env2 post_id user w :
  snd (delete_request UUID_of_hex env post_id user w) = Returns deleted_ack ->
  delete_request UUID_of_hex env2 post_id user
      (fst (delete_request UUID_of_hex env post_id user w))
    = (get_async_session (fst (delete_request UUID_of_hex env post_id user w)),
       Raises (HTTPException 500 "404: Post not found")).
Proof.
  intros Hack.
  destruct (delete_request_outcomes UUID_of_hex env post_id user w)
    as [(w' & cause & Hrun & _)|(post_uuid & post & Hp & _ & _ & _ & _ & Hrun)].
  - rewrite Hrun in Hack. discriminate.
  - rewrite Hrun. cbn [fst]. unfold delete_request at 1.
    unfold delete_post, Exec.try_except, Exec.bind, Exec.of_outcome.
    rewrite Hp. rewrite select_post_by_id_absent; [reflexivity|].
    intros row Hrow. cbn in Hrow. unfold without_post in Hrow.
    apply list_elem_of_In, list_elem_of_filter in Hrow. tauto.
Qed.

Lemma delete_twice_second_finds_nothing_witness :
  snd (delete_request sample_UUID_of_hex (env_status 200) first_post_id alice three_posts)
    = Returns deleted_ack /\
  snd (delete_request sample_UUID_of_hex (env_status 200) first_post_id alice
         (fst (delete_request sample_UUID_of_hex (env_status 200) first_post_id alice three_posts)))
    = Raises (HTTPException 500 "404: Post not found").
Proof.
  split; [reflexivity|].
  rewrite (delete_twice_second_finds_nothing sample_UUID_of_hex (env_status 200)
             (env_status 200) first_post_id alice three_posts eq_refl).
  reflexivity.
Defined.

(** X3.  A malformed identifier never reaches the store: the error of the
    [uuid.UUID] constructor is answered with status 500 and its text as
    detail (not 404 and not 400), and tables are as they were. *)
Theorem delete_malformed_id_answers_500
    (UUID_of_hex : string -> outcome UUID) env post_id user w e :
  UUID_of_hex post_id = Raises e ->
  snd (delete_request UUID_of_hex env post_id user w)
    = Raises (HTTPException 500 (str e)) /\
  posts (fst (delete_request UUID_of_hex env post_id user w)) = posts w /\
  users (fst (delete_request UUID_of_hex env post_id user w)) = users w.
Proof.
  intros H. unfold delete_request.
  rewrite (delete_post_malformed UUID_of_hex env post_id user _ e H).
  repeat split.
Qed.

Lemma delete_malformed_id_answers_500_witness :
  sample_UUID_of_hex "not-a-uuid"
    = Raises (PyError "ValueError" "badly formed hexadecimal UUID string") /\
  snd (delete_request sample_UUID_of_hex (env_status 200) "not-a-uuid" alice three_posts)
    = Raises (HTTPException 500 "badly formed hexadecimal UUID string").
Proof.
  split; [reflexivity|].
  exact (proj1 (delete_malformed_id_answers_500 sample_UUID_of_hex (env_status 200)
                  "not-a-uuid" alice three_posts
                  (PyError "ValueError" "badly formed hexadecimal UUID string") eq_refl)).
Defined.

(** X4.  When the store refuses the commit of a delete the caller was
    entitled to, the request is answered with status 500 and the store's
    message, and the post is still in the table. *)
Theorem delete_commit_refused_keeps_post
    (UUID_of_hex : string -> outcome UUID) env post_id user w post e :
  NoDup (map Post.id (posts w)) ->
  UUID_of_hex post_id = Returns (Post.id post) ->
  In post (posts w) ->
  Post.user_id post = User.id user ->
  Env.commit env = Raises e ->
  snd (delete_request UUID_of_hex env post_id user w)
    = Raises (HTTPException 500 (str e)) /\
  posts (fst (delete_request UUID_of_hex env post_id user w)) = posts w.
Proof.
  intros Hkey Hparse Hin Hown Hcommit.
  destruct (select_post_by_id_present (Post.id post) (get_async_session w))
    as (q & Hsel & Hq & Hqid); [by exists post|].
  assert (q = post) as -> by (by apply (post_key_unique (posts w))).
  unfold delete_request.
  rewrite (delete_post_commit_fails UUID_of_hex env post_id user (get_async_session w)
             (Post.id post) post e) by assumption.
  split; reflexivity.
Qed.

Lemma delete_commit_refused_keeps_post_witness :
  NoDup (map Post.id (posts three_posts)) /\
  snd (delete_request sample_UUID_of_hex env_commit_error first_post_id alice three_posts)
    = Raises (HTTPException 500 "connection was closed") /\
  posts (fst (delete_request sample_UUID_of_hex env_commit_error first_post_id alice three_posts))
    = posts three_posts.
Proof.
  assert (Hkey : NoDup (map Post.id (posts three_posts))) by compute_done.
  split; [exact Hkey|].
  exact (delete_commit_refused_keeps_post sample_UUID_of_hex env_commit_error first_post_id
           alice three_posts
           {| Post.id := 11; Post.user_id := 1; Post.caption := "first";
              Post.url := "https://ik.imagekit.io/demo/a.png";
              Post.file_type := "image"; Post.file_name := "a.png";
              Post.created_at := 100 |}
           (PyError "OperationalError" "connection was closed")
           Hkey eq_refl (or_introl eq_refl) eq_refl eq_refl).
Defined.


(** X6.  A delete request inserts nothing and alters nothing: every row of
    table [post] after the request was a row of it before, table [user] is
    the same, and so are the files and the open handles. *)
Theorem delete_only_removes_posts
    (UUID_of_hex : string -> outcome UUID) env post_id user w :
  (forall row,
     In row (posts (fst (delete_request UUID_of_hex env post_id user w))) ->
     In row (posts w)) /\
  users (fst (delete_request UUID_of_hex env post_id user w)) = users w /\
  files (fst (delete_request UUID_of_hex env post_id user w)) = files w /\
  open_handles (fst (delete_request UUID_of_hex env post_id user w)) = open_handles w.
Proof.
  destruct (delete_request_outcomes UUID_of_hex env post_id user w)
    as [(w' & cause & Hrun & Hposts & Husers & Hfiles & Hopen & _)
       |(post_uuid & post & _ & _ & _ & _ & _ & Hrun)];
    rewrite Hrun; cbn [fst].
  - rewrite Hposts. by repeat split.
  - repeat split. intros row Hrow. cbn in Hrow. unfold without_post in Hrow.
    apply list_elem_of_In, list_elem_of_filter in Hrow.
    apply list_elem_of_In. tauto.
Qed.

(** X7.  With [id] a key of table [post], no delete request removes a post
    of another user: a row whose [user_id] is not the caller's id is still
    in the table after the request, whatever identifier was sent. *)
Theorem delete_never_removes_foreign_post
    (UUID_of_hex : string -> outcome UUID) env post_id user w row :
  NoDup (map Post.id (posts w)) ->
  In row (posts w) ->
  Post.user_id row <> User.id user ->
  In row (posts (fst (delete_request UUID_of_hex env post_id user w))).
Proof.
  intros Hkey Hin Hforeign.
  destruct (delete_request_outcomes UUID_of_hex env post_id user w)
    as [(w' & cause & Hrun & Hposts & _)
       |(post_uuid & post & _ & Hpost & Hid & Hown & _ & Hrun)];
    rewrite Hrun; cbn [fst].
  - by rewrite Hposts.
  - cbn. unfold without_post. apply list_elem_of_In, list_elem_of_filter.
    split; [|by apply list_elem_of_In].
    intros Heq. apply Hforeign. rewrite <- Hown. f_equal.
    apply (post_key_unique (posts w)); [assumption..|]. by rewrite Hid.
Qed.

Lemma delete_never_removes_foreign_post_witness :
  NoDup (map Post.id (posts three_posts)) /\
  In {| Post.id := 12; Post.user_id := 9; Post.caption := "";
        Post.url := "https://ik.imagekit.io/demo/b.mp4"; Post.file_type := "video";
        Post.file_name := "b.mp4"; Post.created_at := 300 |}
     (posts (fst (delete_request sample_UUID_of_hex (env_status 200) second_post_id alice
                    three_posts))).
Proof.
  assert (Hkey : NoDup (map Post.id (posts three_posts))) by compute_done.
  split; [exact Hkey|].
  apply (delete_never_removes_foreign_post sample_UUID_of_hex (env_status 200) second_post_id
           alice three_posts); [exact Hkey | right; left; reflexivity | discriminate].
Defined.

(** ** Upload: the paths the claims leave out *)




(** X9.  When the temporary file cannot be created, the request does not
    end in the [HTTPException] of the [except] clause: the [finally] block
    reads [temp_file_path] before any assignment, and its
    [UnboundLocalError] is what escapes.  Nothing was written, and
    [file.file.close()] was not reached: the request body is as it was. *)
Theorem upload_without_tempfile_escapes_unbound env file caption user w e :
  Env.NamedTemporaryFile env (snd (splitext (UploadFile.filename file))) = Raises e ->
  snd (post_upload env file caption user w)
    = Raises (PyError "UnboundLocalError"
        "cannot access local variable 'temp_file_path' where it is not associated with a value") /\
  posts (fst (post_upload env file caption user w)) = posts w /\
  files (fst (post_upload env file caption user w)) = files w /\
  open_handles (fst (post_upload env file caption user w)) = open_handles w /\
  body_closed (fst (post_upload env file caption user w)) = body_closed w.
Proof.
  intros H. rewrite (post_upload_create_fails env file user caption w e H).
  by repeat split.
Qed.

Lemma upload_without_tempfile_escapes_unbound_witness :
  Env.NamedTemporaryFile env_no_tempfile (snd (splitext (UploadFile.filename clip)))
    = Raises (PyError "OSError" "[Errno 28] No space left on device") /\
  http_status (snd (post_upload env_no_tempfile clip (Some "hello") alice empty_world))
    = 500 /\
  body_closed (fst (post_upload env_no_tempfile clip (Some "hello") alice empty_world))
    = false.
Proof.
  split; [reflexivity|].
  destruct (upload_without_tempfile_escapes_unbound env_no_tempfile clip (Some "hello")
              alice empty_world (PyError "OSError" "[Errno 28] No space left on device")
              eq_refl) as (Ho & _ & _ & _ & Hb).
  rewrite Ho, Hb. split; reflexivity.
Defined.

(** X10.  After every upload that created its temporary file, whichever
    later step failed: the file is gone from the filesystem, the request
    body is closed, and the write handle of the [with] block is closed
    (the only handle the call can leave behind is the read handle of
    line 52). *)
Theorem upload_cleans_up_after_staging env file caption user w path :
  Env.NamedTemporaryFile env (snd (splitext (UploadFile.filename file))) = Returns path ->
  path <> "" ->
  ~ In path (files (fst (post_upload env file caption user w))) /\
  body_closed (fst (post_upload env file caption user w)) = true /\
  (open_handles (fst (post_upload env file caption user w)) = open_handles w \/
   open_handles (fst (post_upload env file caption user w))
     = {| h_path := path; h_mode := Rb |} :: open_handles w).
Proof.
  intros Hp Hne. split; [by apply upload_temp_file_removed|].
  upload_cases env file caption user w; try discriminate;
    injection Hp as ->; rewrite Hx; cbn [fst];
    rewrite open_handles_cleanup; split; (reflexivity || (by left) || (by right)).
Qed.

Lemma upload_cleans_up_after_staging_witness :
  Env.NamedTemporaryFile env_commit_error (snd (splitext (UploadFile.filename clip)))
    = Returns "/tmp/tmpk3x9.mp4" /\
  ~ In "/tmp/tmpk3x9.mp4"
      (files (fst (post_upload env_commit_error clip (Some "hello") alice empty_world))) /\
  body_closed (fst (post_upload env_commit_error clip (Some "hello") alice empty_world))
    = true.
Proof.
  split; [reflexivity|].
  destruct (upload_cleans_up_after_staging env_commit_error clip (Some "hello") alice
              empty_world "/tmp/tmpk3x9.mp4" eq_refl) as (Hf & Hb & _); [discriminate|].
  split; [exact Hf | exact Hb].
Defined.

(** X11.  An upload never alters or removes a row and never touches table
    [user]: table [post] is either as it was, or longer by one row at its
    end, and that row carries the caller's id and the caption sent. *)
Theorem upload_only_appends_own_post env file caption user w :
  users (fst (post_upload env file caption user w)) = users w /\
  (posts (fst (post_upload env file caption user w)) = posts w \/
   exists p,
     inserted w (fst (post_upload env file caption user w)) p /\
     Post.user_id p = User.id user /\
     Post.caption p = default "" caption).
Proof.
  upload_cases env file caption user w; rewrite Hx; cbn [fst];
    rewrite ?users_cleanup; (split; [reflexivity|]);
    try (left; rewrite ?posts_cleanup; reflexivity).
  right. eexists. unfold inserted. rewrite posts_cleanup. cbn. by repeat split.
Qed.

(** X12.  The commit is not undone by what follows it: when reloading the
    committed row fails, the caller is answered with status 500 although
    the post is in the table. *)
Theorem upload_refresh_error_keeps_post env file caption user w path r ct e :
  storage_responded env file path r ->
  UploadResult.http_status_code r = 200 ->
  UploadFile.content_type file = Some ct ->
  Env.commit env = Returns tt ->
  Env.refresh env = Raises e ->
  snd (post_upload env file caption user w) = Raises (HTTPException 500 (str e)) /\
  exists p,
    inserted w (fst (post_upload env file caption user w)) p /\
    Post.user_id p = User.id user /\
    Post.url p = UploadResult.url r.
Proof.
  intros (Ht & Hc & Ho & Hi) Hs Hct Hk Hr.
  pose proof (post_upload_committed env file user caption w path Ht r ct
                Hc Ho Hi Hs Hct Hk) as Hx.
  cbv zeta in Hx. rewrite Hr in Hx. rewrite Hx. cbn [fst snd].
  split; [reflexivity|].
  eexists. unfold inserted. rewrite posts_cleanup. cbn. by repeat split.
Qed.

Lemma upload_refresh_error_keeps_post_witness :
  storage_responded env_refresh_error clip "/tmp/tmpk3x9.mp4" (stored 200 "cat.mp4") /\
  snd (post_upload env_refresh_error clip (Some "hello") alice empty_world)
    = Raises (HTTPException 500 "server closed the connection") /\
  posts (fst (post_upload env_refresh_error clip (Some "hello") alice empty_world))
    = [clip_post].
Proof.
  assert (H : storage_responded env_refresh_error clip "/tmp/tmpk3x9.mp4"
                (stored 200 "cat.mp4")).
  { repeat split; reflexivity. }
  split; [exact H|].
  split; [|reflexivity].
  exact (proj1 (upload_refresh_error_keeps_post env_refresh_error clip (Some "hello")
                  alice empty_world "/tmp/tmpk3x9.mp4" (stored 200 "cat.mp4") "video/mp4"
                  (PyError "OperationalError" "server closed the connection")
                  H eq_refl eq_refl eq_refl eq_refl)).
Defined.

(** X13.  A file part that declares no content type is rejected only
    after Storage has accepted the file: when Storage answers 200, the
    test on [file.content_type] raises, the caller is answered with
    status 500 and the text of the [AttributeError], and no row is
    written. *)
Theorem upload_without_content_type_answers_500 env file caption user w path r :
  storage_responded env file path r ->
  UploadResult.http_status_code r = 200 ->
  UploadFile.content_type file = None ->
  snd (post_upload env file caption user w)
    = Raises (HTTPException 500 "'NoneType' object has no attribute 'startswith'") /\
  posts (fst (post_upload env file caption user w)) = posts w.
Proof.
  intros (Ht & Hc & Ho & Hi) Hs Hct.
  assert (Hrun : post_upload env file caption user w
            = (cleanup path (opened_world path w),
               Raises (HTTPException 500
                         "'NoneType' object has no attribute 'startswith'"))).
  { unfold post_upload, upload_file, upload_file_try, Exec.try_finally, Exec.try_except,
      Exec.bind, Exec.raise.
    rewrite (stage_upload_created env file _ path Ht). cbn [world temp_file_path].
    rewrite Hc.
    rewrite (forward_to_storage_opened env file path _ (exists_cons_same _ _ _) Ho), Hi.
    unfold record_post. rewrite Hs. cbn [Z.eqb Pos.eqb].
    unfold Exec.bind, Exec.of_outcome, content_type_startswith. rewrite Hct.
    rewrite upload_file_finally_bound. reflexivity. }
  rewrite Hrun. cbn [fst snd]. split; [reflexivity|].
  rewrite posts_cleanup. reflexivity.
Qed.

Lemma upload_without_content_type_answers_500_witness :
  storage_responded (env_status 200) untyped_clip "/tmp/tmpk3x9.mp4"
    (stored 200 "cat.mp4") /\
  http_status (snd (post_upload (env_status 200) untyped_clip None alice empty_world))
    = 500 /\
  posts (fst (post_upload (env_status 200) untyped_clip None alice empty_world)) = [].
Proof.
  assert (H : storage_responded (env_status 200) untyped_clip "/tmp/tmpk3x9.mp4"
                (stored 200 "cat.mp4")).
  { repeat split; reflexivity. }
  split; [exact H|].
  destruct (upload_without_content_type_answers_500 (env_status 200) untyped_clip None
              alice empty_world "/tmp/tmpk3x9.mp4" (stored 200 "cat.mp4")
              H eq_refl eq_refl) as [Ho Hp].
  rewrite Ho, Hp. split; reflexivity.
Defined.

(** ** How the handlers compose *)

Lemma without_post_fresh_snoc post_uuid (rows : list Post.t) row :
  (forall q, In q rows -> Post.id q <> post_uuid) ->
  Post.id row = post_uuid ->
  without_post post_uuid (rows ++ [row]) = rows.
Proof.
  intros Hfresh Hid. unfold without_post. rewrite filter_app.
  rewrite filter_cons_False, filter_nil, app_nil_r by (intros H; by apply H).
  induction rows as [|q rows IH]; [reflexivity|].
  rewrite filter_cons_True by (apply Hfresh; by left).
  f_equal. apply IH. intros x Hx. apply Hfresh. by right.
Qed.

(** X14.  Upload, then feed.  With [id] a key of table [user] and the
    uploader among its rows: after an upload that returned a post, the
    feed of any caller has an item for that post, with the caption sent,
    the url Storage returned, the file type derived from the content
    type, the uploader's email, and [is_owner] true exactly for the
    uploader. *)
Theorem uploaded_post_shows_in_feed
    (str_UUID : UUID -> string) (isoformat : datetime -> string)
    env file caption user caller w path r ct :
  storage_responded env file path r ->
  UploadResult.http_status_code r = 200 ->
  UploadFile.content_type file = Some ct ->
  Env.commit env = Returns tt ->
  Env.refresh env = Returns tt ->
  NoDup (map User.id (users w)) ->
  In user (users w) ->
  exists p items item,
    snd (post_upload env file caption user w) = Returns (Some p) /\
    snd (get_feed str_UUID isoformat caller (fst (post_upload env file caption user w)))
      = Returns items /\
    In item items /\
    PostData.id item = str_UUID (Post.id p) /\
    PostData.caption item = default "" caption /\
    PostData.url item = UploadResult.url r /\
    PostData.file_type item = (if startswith ct "video/" then "video" else "image") /\
    PostData.email item = User.email user /\
    (PostData.is_owner item = true <-> User.id user = User.id caller).
Proof.
  intros (Ht & Hc & Ho & Hi) Hs Hct Hk Hr Hkey Huser.
  pose proof (post_upload_committed env file user caption w path Ht r ct
                Hc Ho Hi Hs Hct Hk) as Hx.
  cbv zeta in Hx. rewrite Hr in Hx. rewrite Hx. cbn [fst snd].
  set (row := NewPost.materialize (Env.defaults env 0)
                (new_post user (default "" caption) r (startswith ct "video/"))).
  set (w' := cleanup path (with_posts (posts w ++ [row]) (opened_world path w))).
  assert (Hposts : posts w' = (posts w ++ [row])%list).
  { unfold w'. rewrite posts_cleanup. reflexivity. }
  assert (Husers : users w' = users w).
  { unfold w'. rewrite users_cleanup. reflexivity. }
  exists row. eexists.
  exists (post_data str_UUID isoformat caller (user_dict_of (users w')) row).
  rewrite get_feed_run, Husers. cbn [snd].
  split; [reflexivity|]. split; [reflexivity|].
  split.
  { apply in_map. eapply Permutation_in.
    - symmetry. apply order_by_created_at_desc_Permutation.
    - rewrite Hposts. apply in_or_app. right. by left. }
  repeat (split; [reflexivity|]).
  split.
  - cbn. unfold dict_get, user_dict_of.
    by rewrite user_dict_lookup_present.
  - cbn. apply N.eqb_eq.
Qed.

Lemma uploaded_post_shows_in_feed_witness :
  storage_responded (env_status 200) clip "/tmp/tmpk3x9.mp4" (stored 200 "cat.mp4") /\
  NoDup (map User.id (users empty_world)) /\
  match snd (get_feed pretty pretty bob
               (fst (post_upload (env_status 200) clip (Some "hello") alice empty_world)))
  with
  | Returns items => map (fun item => (PostData.email item, PostData.is_owner item)) items
  | Raises _ => []
  end = [("alice@example.com", false)].
Proof.
  assert (H : storage_responded (env_status 200) clip "/tmp/tmpk3x9.mp4"
                (stored 200 "cat.mp4")).
  { repeat split; reflexivity. }
  assert (Hkey : NoDup (map User.id (users empty_world))) by compute_done.
  split; [exact H|]. split; [exact Hkey|].
  destruct (uploaded_post_shows_in_feed pretty pretty (env_status 200) clip (Some "hello")
              alice bob empty_world "/tmp/tmpk3x9.mp4" (stored 200 "cat.mp4") "video/mp4"
              H eq_refl eq_refl eq_refl eq_refl Hkey (or_introl eq_refl))
    as (p & items & item & _ & Hfeed & _).
  reflexivity.
Defined.

(** X15.  Upload, then delete.  When the id the store generated for an
    uploaded post is new to table [post], a delete request by the
    uploader for that id returns the acknowledgement and leaves the table
    exactly as it was before the upload. *)
Theorem upload_then_delete_restores_posts
    (UUID_of_hex : string -> outcome UUID) env env2 file caption user w path r ct post_id :
  storage_responded env file path r ->
  UploadResult.http_status_code r = 200 ->
  UploadFile.content_type file = Some ct ->
  Env.commit env = Returns tt ->
  (forall q, In q (posts w) -> Post.id q <> fst (Env.defaults env 0)) ->
  UUID_of_hex post_id = Returns (fst (Env.defaults env 0)) ->
  Env.commit env2 = Returns tt ->
  snd (delete_request UUID_of_hex env2 post_id user
         (fst (post_upload env file caption user w))) = Returns deleted_ack /\
  posts (fst (delete_request UUID_of_hex env2 post_id user
                (fst (post_upload env file caption user w)))) = posts w.
Proof.
  intros (Ht & Hc & Ho & Hi) Hs Hct Hk Hfresh Hparse Hk2.
  pose proof (post_upload_committed env file user caption w path Ht r ct
                Hc Ho Hi Hs Hct Hk) as Hx.
  cbv zeta in Hx. rewrite Hx. cbn [fst].
  set (row := NewPost.materialize (Env.defaults env 0)
                (new_post user (default "" caption) r (startswith ct "video/"))).
  set (w' := cleanup path (with_posts (posts w ++ [row]) (opened_world path w))).
  assert (Hposts : posts (get_async_session w') = (posts w ++ [row])%list).
  { change (posts (get_async_session w')) with (posts w').
    unfold w'. rewrite posts_cleanup. reflexivity. }
  destruct (select_post_by_id_present (fst (Env.defaults env 0)) (get_async_session w'))
    as (q & Hsel & Hq & Hqid).
  { exists row. split; [|reflexivity]. rewrite Hposts. apply in_or_app. right. by left. }
  assert (q = row) as ->.
  { rewrite Hposts in Hq. apply in_app_or in Hq. destruct Hq as [Hq|[Hq|[]]]; [|by symmetry].
    exfalso. by apply (Hfresh q). }
  unfold delete_request.
  rewrite (delete_post_commits UUID_of_hex env2 post_id user (get_async_session w')
             (fst (Env.defaults env 0)) row) by (assumption || reflexivity).
  cbn [fst snd]. split; [reflexivity|].
  change (posts (with_posts ?l _)) with l. rewrite Hposts.
  by apply without_post_fresh_snoc.
Qed.

Lemma upload_then_delete_restores_posts_witness :
  storage_responded (env_status 200) clip "/tmp/tmpk3x9.mp4" (stored 200 "cat.mp4") /\
  clip_UUID_of_hex clip_post_id = Returns (fst (Env.defaults (env_status 200) 0)) /\
  snd (delete_request clip_UUID_of_hex (env_status 200) clip_post_id alice
         (fst (post_upload (env_status 200) clip (Some "hello") alice three_posts)))
    = Returns deleted_ack /\
  posts (fst (delete_request clip_UUID_of_hex (env_status 200) clip_post_id alice
                (fst (post_upload (env_status 200) clip (Some "hello") alice three_posts))))
    = posts three_posts.
Proof.
  assert (H : storage_responded (env_status 200) clip "/tmp/tmpk3x9.mp4"
                (stored 200 "cat.mp4")).
  { repeat split; reflexivity. }
  split; [exact H|]. split; [reflexivity|].
  apply (upload_then_delete_restores_posts clip_UUID_of_hex (env_status 200)
           (env_status 200) clip (Some "hello") alice three_posts "/tmp/tmpk3x9.mp4"
           (stored 200 "cat.mp4") "video/mp4" clip_post_id H eq_refl eq_refl eq_refl);
    [|reflexivity|reflexivity].
  intros q Hq. cbn in Hq. destruct Hq as [<-|[<-|[<-|[]]]]; discriminate.
Defined.

(** ** Feed: what the claims leave out *)

(** X16.  The feed has exactly one item per row of table [post]: its
    items are the projections, one by one, of a rearrangement of the
    table, so no row is dropped and none is repeated; the feed is as long
    as the table, and an empty table gives an empty feed. *)
Theorem feed_has_one_item_per_post
    (str_UUID : UUID -> string) (isoformat : datetime -> string) user w :
  exists rows items,
    snd (get_feed str_UUID isoformat user w) = Returns items /\
    items = map (post_data str_UUID isoformat user (user_dict_of (users w))) rows /\
    Permutation rows (posts w) /\
    length items = length (posts w) /\
    (posts w = [] -> items = []).
Proof.
  exists (order_by_created_at_desc (posts w)). eexists.
  rewrite get_feed_run. cbn [snd].
  split; [reflexivity|]. split; [reflexivity|].
  split; [apply order_by_created_at_desc_Permutation|]. split.
  - rewrite length_map. apply Permutation_length, order_by_created_at_desc_Permutation.
  - intros ->. reflexivity.
Qed.

Lemma user_dict_last_row_wins us1 u us2 :
  (forall v, In v us2 -> User.id v <> User.id u) ->
  user_dict_of (us1 ++ u :: us2) !! User.id u = Some (User.email u).
Proof.
  intros Hlast. unfold user_dict_of. rewrite fold_left_app. cbn.
  rewrite user_dict_lookup_absent by exact Hlast.
  apply lookup_insert_eq.
Qed.

(** X17.  Without assuming that ids are unique in table [user]: the
    dictionary comprehension of line 91 lets later rows overwrite earlier
    ones, so the email shown for a post is that of the last user row
    carrying the post's [user_id]. *)
Theorem feed_email_of_last_matching_user
    (str_UUID : UUID -> string) (isoformat : datetime -> string) user w :
  exists items,
    snd (get_feed str_UUID isoformat user w) = Returns items /\
    Forall2 (fun post item =>
               forall us1 u us2,
                 users w = (us1 ++ u :: us2)%list ->
                 User.id u = Post.user_id post ->
                 (forall v, In v us2 -> User.id v <> Post.user_id post) ->
                 PostData.email item = User.email u)
            (order_by_created_at_desc (posts w)) items.
Proof.
  eexists. rewrite get_feed_run. cbn [snd]. split; [reflexivity|].
  induction (order_by_created_at_desc (posts w)) as [|post rows IH]; cbn;
    constructor; [|exact IH].
  intros us1 u us2 Husers Hid Hlast. cbn. unfold dict_get.
  rewrite Husers, <- Hid, user_dict_last_row_wins; [reflexivity|].
  intros v Hv. rewrite Hid. by apply Hlast.
Qed.
